(* ===== verification/_CoqProject ===== *)
-Q . S2P
Prelude.v
Layout.v
Tft.v
PrintFloat.v
Estimator.v
Renderer.v
Mpu6050.v
Driver.v
