(* ===== verification/Prelude.v ===== *)
(** * A verification of esp32-mpu6050-attitude-display

    The program ([src/src/main.cpp], 153 lines) runs on an ESP32. It
    samples an MPU6050 inertial sensor over I2C and derives roll and
    pitch from the acceleration vector. It shows roll, pitch and the
    die temperature on an ILI9341 TFT over SPI, about ten times a
    second. The Arduino runtime calls [setup] once and then [loop]
    forever.

    ** The parts and how they interact

    [setup] brings up the sensor driver (Adafruit_MPU6050) and the
    display driver (Adafruit_ILI9341 over Adafruit_GFX). It then draws
    the static screen with [drawHeader] and [drawStaticLabels]. Each
    [loop] reads one event from the sensor and turns the acceleration
    into roll and pitch (lines 137-139). It logs one line on the serial
    port and redraws the three numbers with [printValue]. [printValue]
    clears a value box, then prints through Arduino's
    [Print::print(double, digits)].

    ** Files, in dependency order

    - [Prelude] (this file): the scope [esp_scope] with the interval
      notation, the Ltac tactics [Zbool], [Zcase_lia], [destruct_ifs_in]
      and [Zbool_goal], the hint databases [esp] and [esp_rw], and
      generic list and string lemmas.
    - [Layout]: Module [Pins] (lines 13-24) and the UI constants (lines
      31-47). Module [Colors] holds the RGB565 colours of the driver
      header. Rectangles come with [in_rect], [rect_sub] and
      [rect_disjoint], and the value boxes [value_box] on the rows
      [value_lines].
    - [Tft]: the display collaborator, modelled from the spec. It is not
      in [src/]. The panel is a framebuffer [Z -> Z -> Z]. The driver's
      state is the record [cfg]: size, rotation, cursor, text size,
      colours and wrap. A drawing call is a computation in the state and
      writer monad [gfx]. It reads and updates [cfg] and emits [paint]
      commands, which [apply_paints] replays on the framebuffer.
      [begin], [setRotation], [fillRect], [fillScreen], [setTextSize],
      [setTextColor], [setCursor] and [print] follow Adafruit_GFX.
      [fillRect] clips to the screen. [drawChar] is the 6x8 cell of the
      classic font scaled by the text size, with an opaque background.
      [write] handles newline, carriage return and wrap. Framebuffers
      are compared pointwise ([fb_eq]), with [Proper] instances for
      setoid rewriting. The footprint of a command list is bounded with
      [covers_only] (it paints inside a rectangle) and [avoids] (it
      paints nothing of a rectangle). Both compose along [bind].
    - [PrintFloat]: Arduino's [Print::printFloat] and [printNumber]
      (framework code, spec-modelled). It covers the sign, rounding by
      half a unit of the last digit, the integer part by repeated
      division by ten, and the fraction digits.
    - [Estimator]: [atan2] with the C library's quadrant rules, defined
      over R by cases on the signs. [roll_rad], [pitch_rad] and
      [estimate] are lines 137-139, with [* 180.0f / PI] as [* 180 / PI].
    - [Renderer]: [drawHeader], [drawStaticLabels], [clearValueBox] and
      [printValue] (lines 49-90), written as [gfx] programs that call
      [Tft] the way the source calls [tft].
    - [Mpu6050]: the sensor collaborator, spec-modelled. It covers
      [begin], the three configuration calls and [getEvent] on four raw
      16-bit registers.
    - [Driver]: [setup] (lines 92-125) and [loop] (lines 127-153) on a
      machine holding the display, the sensor and the serial log. The
      inductive [step] relation (setup once, then loop, or the Halted
      wait of line 104) and its closure [reach] give the runs.
      [run_loops] iterates [loop] over a list of samples.

    ** What is proved

    - Estimator (C1-C7): roll lies in (-180, 180] and pitch in [-90, 90].
      The estimate inverts the body-frame gravity vector of any
      attitude with roll in (-180, 180] and pitch in (-90, 90), which is a
      refinement of the physical contract. It is invariant under scaling
      of the vector. The named cases of the spec hold: level, nose down
      and a 45 degree roll.
    - Renderer (C8-C12): the characters [printValue] sends are the
      closed form of [printFloat] plus the unit, and values in
      (-0.05, 0) print as "-0.0". [printValue] is idempotent up to
      [fb_eq]. After it, every pixel of the box is independent of
      what the screen showed before, so no residue remains. A value
      below 999.95 in magnitude, with a short printable unit, never
      paints outside its box.
    - Renderer (C13): the static screen ([drawHeader], then
      [drawStaticLabels]) paints no pixel of a value box. The header
      band ends above the first box, and the title and labels at text
      size 2 end left of [LINE_X_VAL]. So clearing a box never erases
      a label.
    - Driver (C14-C17), by rule induction on [reach]:
      - with the sensor present, every Running state has the 240x320
        portrait screen and the configured sensor;
      - every on-screen pixel outside the value boxes and the text
        cells shows the picture of [setup]: the header colour above
        [HEADER_H] and the background below it ([static_color]);
      - without the sensor, the program halts, never draws and logs the
        error once;
      - [setup] followed by any sequence of 16-bit samples is a run that
        stays Running, and its serial log is the start message followed
        by one line per cycle, in order, each read with the +-8 g
        scale;
      - a loop cycle changes only pixels of the three value boxes.

    ** Bounds and fuel

    [printNumber] runs on fuel 32, the size of Arduino's digit buffer
    ([8 * sizeof(long)]). An unsigned long has at most 10 decimal
    digits, so 32 steps always finish; [printNumber_value] proves the
    digits' value for every argument below [10^32]. The bound 999.95 of
    the confinement theorems keeps one-decimal output to at most six
    characters ("-999.9"). With " " and a unit of at most three
    letters that is ten characters, 120 pixels at text size 2. This
    fits the box from x = 110 without wrapping on the 240-pixel
    screen. The sensor registers are 16-bit, so temperatures lie in
    (-60, 133); roll and pitch lie in [-180, 180]. Every displayed value
    meets the bound.

    ** Not modelled

    - [Serial.begin], [delay], [Wire.begin] and [SPI.begin]: bus bring-up
      and timing, with no effect on the modelled state.
    - The serial log keeps the values of each line, not their [printf]
      formatting.
    - Floating-point rounding of [atan2f], [sqrtf] and the products: the
      estimator is proved over the reals.
    - The gyro reading: it is configured but never used. *)

From Stdlib Require Import ZArith Lia List String Ascii Bool.
Import ListNotations.

Declare Scope esp_scope.
Delimit Scope esp_scope with esp.
Open Scope esp_scope.

Create HintDb esp.
Create Rewrite HintDb esp_rw.

(** ** Half-open integer intervals

    Every clipping test of the display code has the shape
    [lo <= x && x < hi]. *)

Definition Zbetween (lo x hi : Z) : bool := (lo <=? x)%Z && (x <? hi)%Z.

Notation "⟪ lo , x , hi ⟫" := (Zbetween lo x hi)
  (at level 0, lo at level 200, x at level 200, hi at level 200) : esp_scope.

Lemma Zbetween_spec lo x hi : Zbetween lo x hi = true <-> (lo <= x < hi)%Z.
Proof. unfold Zbetween. rewrite andb_true_iff, Z.leb_le, Z.ltb_lt. tauto. Qed.

Lemma Zbetween_false lo x hi : Zbetween lo x hi = false <-> ~ (lo <= x < hi)%Z.
Proof. rewrite <- Zbetween_spec. destruct (Zbetween lo x hi); intuition congruence. Qed.

(** Turn boolean comparisons on Z into propositions, so that [lia] can
    finish. *)
Ltac Zbool :=
  repeat match goal with
  | H : _ && _ = true |- _ => apply andb_true_iff in H; destruct H
  | H : _ || _ = false |- _ => apply orb_false_iff in H; destruct H
  | H : _ || _ = true |- _ => apply orb_true_iff in H; destruct H
  | H : negb _ = true |- _ => apply negb_true_iff in H
  | H : negb _ = false |- _ => apply negb_false_iff in H
  | H : Zbetween _ _ _ = true |- _ => apply Zbetween_spec in H
  | H : Zbetween _ _ _ = false |- _ => apply Zbetween_false in H
  | H : (_ <=? _)%Z = true |- _ => apply Z.leb_le in H
  | H : (_ <=? _)%Z = false |- _ => apply Z.leb_gt in H
  | H : (_ <? _)%Z = true |- _ => apply Z.ltb_lt in H
  | H : (_ <? _)%Z = false |- _ => apply Z.ltb_ge in H
  | H : (_ =? _)%Z = true |- _ => apply Z.eqb_eq in H
  | H : (_ =? _)%Z = false |- _ => apply Z.eqb_neq in H
  end.

(** Case on every boolean Z test of the goal, then close with [lia]. *)
Ltac Zcase_lia :=
  repeat match goal with
  | |- context [Zbetween ?a ?b ?c] => destruct (Zbetween a b c) eqn:?
  | |- context [(?a <=? ?b)%Z] => destruct (a <=? b)%Z eqn:?
  | |- context [(?a <? ?b)%Z] => destruct (a <? b)%Z eqn:?
  | |- context [(?a =? ?b)%Z] => destruct (a =? b)%Z eqn:?
  end; Zbool; try lia.

(** Destruct every [if] of a hypothesis (a definition unfolded in it),
    keeping the tested booleans as equations. *)
Ltac destruct_ifs_in H :=
  repeat match type of H with
  | context [if ?b then _ else _] => destruct b eqn:?
  end.

(** Decide a goal made of boolean Z comparisons. *)
Ltac Zbool_goal :=
  repeat rewrite ?andb_true_iff, ?orb_true_iff, ?negb_true_iff, ?Zbetween_spec,
    ?Z.leb_le, ?Z.ltb_lt, ?Z.eqb_eq;
  lia.

(** The same, for goals with products of variables. *)
Ltac Zbool_goal_nia :=
  repeat rewrite ?andb_true_iff, ?orb_true_iff, ?negb_true_iff, ?Zbetween_spec,
    ?Z.leb_le, ?Z.ltb_lt, ?Z.eqb_eq;
  nia.

(** ** Lists *)

(** An invariant of every step of a left fold holds of its result: the
    induction principle of the code's [for] loops. *)
Lemma fold_left_invariant {A B} (P : A -> Prop) (f : A -> B -> A) (l : list B) (a : A) :
  P a -> (forall a' b, In b l -> P a' -> P (f a' b)) -> P (fold_left f l a).
Proof.
  revert a. induction l as [|b l IH]; intros a Ha Hstep; simpl; [exact Ha|].
  apply IH; [apply Hstep; simpl; auto | intros; apply Hstep; simpl; auto].
Qed.

Lemma in_seq_Z (n k : nat) : In k (seq 0 n) -> (0 <= Z.of_nat k < Z.of_nat n)%Z.
Proof. rewrite in_seq. lia. Qed.

(** ** Strings *)

Lemma string_length_append (s t : string) :
  String.length (s ++ t) = String.length s + String.length t.
Proof. induction s as [|c s IH]; simpl; [reflexivity | now rewrite IH]. Qed.

#[export] Hint Rewrite string_length_append : esp_rw.
#[export] Hint Resolve Zbetween_spec : esp.
