(* ===== verification/Layout.v ===== *)
(** * Layout: the pin map, the UI constants and screen rectangles

    The compile-time constants of [src/src/main.cpp] (lines 11-47): the
    I2C and SPI pin assignment, the header height, the text positions
    and the size of the value boxes. The colours are the RGB565
    constants of Adafruit_ILI9341.h. The file also holds axis-aligned
    rectangles with their membership, containment and disjointness
    tests, which the display model and the renderer share. *)

From Stdlib Require Import ZArith Lia List Bool.
From S2P Require Import Prelude.
Import ListNotations.
Open Scope Z_scope.

(** ** Pin map (main.cpp 11-24) *)
Module Pins.
Definition I2C_SDA : Z := 21.
Definition I2C_SCL : Z := 22.
Definition TFT_CS : Z := 5.
Definition TFT_DC : Z := 2.
Definition TFT_RST : Z := 4.
Definition SPI_SCK : Z := 18.
Definition SPI_MISO : Z := 19.
Definition SPI_MOSI : Z := 23.

(** Every GPIO the program claims, in declaration order. *)
Definition pin_map : list Z :=
  [I2C_SDA; I2C_SCL; TFT_CS; TFT_DC; TFT_RST; SPI_SCK; SPI_MISO; SPI_MOSI].

Fixpoint all_distinct (l : list Z) : bool :=
  match l with
  | [] => true
  | x :: l' => negb (existsb (Z.eqb x) l') && all_distinct l'
  end.
End Pins.

(** ** Colours (RGB565, Adafruit_ILI9341.h) *)
Module Colors.
Definition ILI9341_BLACK : Z := 0.        (* 0x0000 *)
Definition ILI9341_WHITE : Z := 65535.    (* 0xFFFF *)
Definition ILI9341_DARKCYAN : Z := 1007.  (* 0x03EF *)
Definition ILI9341_GREEN : Z := 2016.     (* 0x07E0 *)
Definition ILI9341_CYAN : Z := 2047.      (* 0x07FF *)
Definition ILI9341_RED : Z := 63488.      (* 0xF800 *)
End Colors.
Import Colors.

(** ** UI constants (main.cpp 31-47) *)
Definition HEADER_H : Z := 40.
Definition COL_BG : Z := ILI9341_BLACK.
Definition COL_HEADER : Z := ILI9341_DARKCYAN.
Definition COL_ROLL : Z := ILI9341_GREEN.
Definition COL_PITCH : Z := ILI9341_CYAN.
Definition COL_TEMP : Z := ILI9341_RED.
Definition LINE_X_LABEL : Z := 10.
Definition LINE_X_VAL : Z := 110.
Definition LINE_Y1 : Z := HEADER_H + 30.
Definition LINE_Y2 : Z := HEADER_H + 70.
Definition LINE_Y3 : Z := HEADER_H + 110.
Definition VAL_W : Z := 200.
Definition VAL_H : Z := 24.

(** ** Rectangles *)
Record rect := Rect { rx : Z; ry : Z; rw : Z; rh : Z }.

Definition in_rect (r : rect) (x y : Z) : bool :=
  ⟪ rx r , x , rx r + rw r ⟫ && ⟪ ry r , y , ry r + rh r ⟫.

(** [r1] lies inside [r2] (for non-empty [r1]). *)
Definition rect_sub (r1 r2 : rect) : bool :=
  (rx r2 <=? rx r1) && (rx r1 + rw r1 <=? rx r2 + rw r2) &&
  (ry r2 <=? ry r1) && (ry r1 + rh r1 <=? ry r2 + rh r2).

(** [r1] and [r2] share no point: one lies entirely to one side of the
    other. *)
Definition rect_disjoint (r1 r2 : rect) : bool :=
  (rx r1 + rw r1 <=? rx r2) || (rx r2 + rw r2 <=? rx r1) ||
  (ry r1 + rh r1 <=? ry r2) || (ry r2 + rh r2 <=? ry r1).

Lemma in_rect_spec r x y :
  in_rect r x y = true <-> rx r <= x < rx r + rw r /\ ry r <= y < ry r + rh r.
Proof. unfold in_rect. rewrite andb_true_iff, !Zbetween_spec. tauto. Qed.

Lemma rect_sub_spec r1 r2 x y :
  rect_sub r1 r2 = true -> in_rect r1 x y = true -> in_rect r2 x y = true.
Proof. unfold rect_sub. rewrite !in_rect_spec. intros; Zbool; lia. Qed.

Lemma rect_disjoint_spec r1 r2 x y :
  rect_disjoint r1 r2 = true -> in_rect r1 x y = true -> in_rect r2 x y = false.
Proof.
  unfold rect_disjoint. rewrite in_rect_spec. intros H Hin.
  destruct (in_rect r2 x y) eqn:E; [|reflexivity].
  apply in_rect_spec in E. rewrite !orb_true_iff in H. exfalso.
  destruct H as [[[H|H]|H]|H]; Zbool; lia.
Qed.

Lemma in_rect_false r x y :
  in_rect r x y = false <-> ~ (rx r <= x < rx r + rw r /\ ry r <= y < ry r + rh r).
Proof. rewrite <- in_rect_spec. destruct (in_rect r x y); intuition congruence. Qed.

(** A rectangle that misses a pixel is disjoint from the 1x1 rectangle
    of that pixel. *)
Lemma rect_disjoint_pixel r x y : in_rect r x y = false -> rect_disjoint r (Rect x y 1 1) = true.
Proof. rewrite in_rect_false. intros H. unfold rect_disjoint. cbn [rx ry rw rh]. Zbool_goal. Qed.

(** Turn membership tests of hypotheses into arithmetic for [lia]. *)
Ltac in_rect_props :=
  repeat match goal with
  | H : in_rect _ _ _ = false |- _ => apply in_rect_false in H; cbn [rx ry rw rh] in H
  | H : in_rect _ _ _ = true |- _ => apply in_rect_spec in H; cbn [rx ry rw rh] in H
  end.

#[export] Hint Resolve rect_sub_spec rect_disjoint_spec : esp.

(** ** The screen regions of the layout *)

(** The value box of [clearValueBox y]. *)
Definition value_box (y : Z) : rect := Rect LINE_X_VAL y VAL_W VAL_H.

Definition value_lines : list Z := [LINE_Y1; LINE_Y2; LINE_Y3].
