(* ===== verification/Tft.v ===== *)
(** * Tft: the ILI9341 display collaborator

    The program draws through the Adafruit_GFX / Adafruit_ILI9341
    library, which is not part of [src/]. The spec (section 6) names the
    contract: [initialize], [setOrientation], [fillRect], [drawText]
    with colours, text size and cursor. This file models that contract
    at the level of the library's code:

    - the state of the [tft] object is split into the GRAM (a
      framebuffer, [Z -> Z -> Z] colours) and the configuration [cfg]
      (the fields of Adafruit_GFX: [_width], [_height], [rotation],
      [cursor_x], [cursor_y], [textsize], [textcolor], [textbgcolor],
      [wrap]);
    - every drawing call reads only the configuration and sends paint
      commands to the controller. The library never reads GRAM back.
      A drawing program is therefore a state-and-writer monad [gfx]:
      it threads [cfg] and emits a list of [paint]s, and [run] applies
      them to the GRAM;
    - the built-in 5x7 font ([glcdfont.c]) is a parameter [font] of
      every text operation, so the theorems hold for any font table.

    Not modelled: the SPI transactions themselves, the [int16_t]
    truncation of coordinates (the program's coordinates are below
    400), and proportional GFX fonts (the program uses the built-in
    font). *)

From Stdlib Require Import ZArith Lia List String Ascii Bool Morphisms RelationClasses Setoid.
From S2P Require Import Prelude Layout.
Import ListNotations.
Open Scope Z_scope.

Module Tft.

(** ** Framebuffer and paint commands *)

Definition framebuffer := Z -> Z -> Z.

(** One command to the controller: fill a clipped rectangle. *)
Record paint := Paint { p_rect : rect; p_color : Z }.

Definition paint_fb (fb : framebuffer) (p : paint) : framebuffer :=
  fun x y => if in_rect (p_rect p) x y then p_color p else fb x y.

Definition apply_paints (ps : list paint) (fb : framebuffer) : framebuffer :=
  fold_left paint_fb ps fb.

(** The colour of the last command covering a pixel, if any. *)
Fixpoint last_cover (ps : list paint) (x y : Z) : option Z :=
  match ps with
  | [] => None
  | p :: ps' =>
      match last_cover ps' x y with
      | Some c => Some c
      | None => if in_rect (p_rect p) x y then Some (p_color p) else None
      end
  end.

(** Two framebuffers showing the same picture. *)
Definition fb_eq (f g : framebuffer) : Prop := forall x y, f x y = g x y.

(** ** Configuration and state *)

Record cfg := Cfg {
  width : Z; height : Z; rotation : Z;
  cursor_x : Z; cursor_y : Z; textsize : Z;
  textcolor : Z; textbgcolor : Z; wrap : bool }.

Record tft := Tft { gram : framebuffer; conf : cfg }.

Definition ILI9341_TFTWIDTH : Z := 240.
Definition ILI9341_TFTHEIGHT : Z := 320.

(** The constructor [Adafruit_ILI9341 tft(TFT_CS, TFT_DC, TFT_RST)]
    (Adafruit_GFX's constructor with [w = 240], [h = 320]). *)
Definition cfg_init : cfg :=
  Cfg ILI9341_TFTWIDTH ILI9341_TFTHEIGHT 0 0 0 1 65535 65535 true.

Definition set_cursor (c : cfg) (x y : Z) : cfg :=
  Cfg (width c) (height c) (rotation c) x y (textsize c) (textcolor c) (textbgcolor c) (wrap c).

(** ** The drawing monad *)

Definition gfx (A : Type) : Type := cfg -> A * list paint * cfg.

Definition ret {A} (a : A) : gfx A := fun c => (a, [], c).

Definition bind {A B} (m : gfx A) (k : A -> gfx B) : gfx B :=
  fun c => let '(a, ps1, c1) := m c in
           let '(b, ps2, c2) := k a c1 in (b, ps1 ++ ps2, c2).

Declare Scope gfx_scope.
Delimit Scope gfx_scope with gfx.
Notation "x <- m ;; k" := (bind m (fun x => k))
  (at level 61, m at next level, right associativity) : gfx_scope.
Notation "m ;; k" := (bind m (fun _ => k))
  (at level 61, right associativity) : gfx_scope.
Open Scope gfx_scope.

(** Run a drawing program on the display. *)
Definition run {A} (m : gfx A) (s : tft) : A * tft :=
  let '(a, ps, c) := m (conf s) in (a, Tft (apply_paints ps (gram s)) c).

Definition exec {A} (m : gfx A) (s : tft) : tft := snd (run m s).

(** ** Clipping: Adafruit_SPITFT::fillRect *)

(** The rectangle the controller is asked to fill, after the library's
    normalisation of negative sizes and its clipping to the screen, or
    [None] when nothing is drawn. *)
Definition clip_rect (W H x y w h : Z) : option rect :=
  if (w =? 0) || (h =? 0) then None else
  let '(x, w) := if w <? 0 then (x + w + 1, - w) else (x, w) in
  if negb (x <? W) then None else
  let '(y, h) := if h <? 0 then (y + h + 1, - h) else (y, h) in
  if negb (y <? H) then None else
  let x2 := x + w - 1 in
  if x2 <? 0 then None else
  let y2 := y + h - 1 in
  if y2 <? 0 then None else
  let '(x, w) := if x <? 0 then (0, x2 + 1) else (x, w) in
  let '(y, h) := if y <? 0 then (0, y2 + 1) else (y, h) in
  let w := if W <=? x2 then W - x else w in
  let h := if H <=? y2 then H - y else h in
  Some (Rect x y w h).

Definition fill_cmds (W H x y w h color : Z) : list paint :=
  match clip_rect W H x y w h with
  | Some r => [Paint r color]
  | None => []
  end.

(** [writePixel]: one pixel, if it is on the screen. *)
Definition pixel_cmds (W H x y color : Z) : list paint :=
  if ⟪ 0 , x , W ⟫ && ⟪ 0 , y , H ⟫ then [Paint (Rect x y 1 1) color] else [].

(** ** Operations of the [tft] object *)

(** [Adafruit_ILI9341::begin]: sends the controller's init sequence and
    resets the logical size to the native portrait size. *)
Definition begin : gfx unit := fun c =>
  (tt, [], Cfg ILI9341_TFTWIDTH ILI9341_TFTHEIGHT (rotation c) (cursor_x c) (cursor_y c)
              (textsize c) (textcolor c) (textbgcolor c) (wrap c)).

(** [setRotation(m)]: [rotation = m & 3]; portrait for 0 and 2. *)
Definition setRotation (m : Z) : gfx unit := fun c =>
  let r := Z.land m 3 in
  let '(w, h) := if (r =? 0) || (r =? 2) then (ILI9341_TFTWIDTH, ILI9341_TFTHEIGHT)
                 else (ILI9341_TFTHEIGHT, ILI9341_TFTWIDTH) in
  (tt, [], Cfg w h r (cursor_x c) (cursor_y c) (textsize c) (textcolor c) (textbgcolor c) (wrap c)).

Definition get_width : gfx Z := fun c => (width c, [], c).

Definition fillRect (x y w h color : Z) : gfx unit := fun c =>
  (tt, fill_cmds (width c) (height c) x y w h color, c).

(** [Adafruit_GFX::fillScreen]: [fillRect(0, 0, _width, _height, c)]. *)
Definition fillScreen (color : Z) : gfx unit := fun c =>
  fillRect 0 0 (width c) (height c) color c.

(** [setTextSize(s)]: [textsize = (s > 0) ? s : 1]. *)
Definition setTextSize (s : Z) : gfx unit := fun c =>
  (tt, [], Cfg (width c) (height c) (rotation c) (cursor_x c) (cursor_y c)
              (if 0 <? s then s else 1) (textcolor c) (textbgcolor c) (wrap c)).

Definition setTextColor (fg bg : Z) : gfx unit := fun c =>
  (tt, [], Cfg (width c) (height c) (rotation c) (cursor_x c) (cursor_y c)
              (textsize c) fg bg (wrap c)).

Definition setCursor (x y : Z) : gfx unit := fun c => (tt, [], set_cursor c x y).

Definition Zseq (n : nat) : list Z := map Z.of_nat (seq 0 n).

Section WithFont.
(** The built-in font: byte [i] of the [font] table of glcdfont.c,
    five column bytes per character, bit [j] for row [j]. *)
Variable font : Z -> Z.

(** [Adafruit_GFX::drawChar] for the built-in font. A set bit of
    column [i] paints a [size x size] block in [color], a clear bit
    paints it in [bg] unless [bg == color] (transparent text); an
    opaque character also gets its sixth, blank column in [bg]. *)
Definition char_cmds (W H x y ch color bg size : Z) : list paint :=
  if (W <=? x) || (H <=? y) || (x + 6 * size - 1 <? 0) || (y + 8 * size - 1 <? 0)
  then []
  else
    let ch := if 176 <=? ch then ch + 1 else ch in
    let block x' y' col :=
      if size =? 1 then pixel_cmds W H x' y' col
      else fill_cmds W H x' y' size size col in
    flat_map (fun i =>
      flat_map (fun j =>
        if Z.testbit (font (ch * 5 + i)) j then block (x + i * size) (y + j * size) color
        else if negb (bg =? color) then block (x + i * size) (y + j * size) bg
        else []) (Zseq 8)) (Zseq 5)
    ++ (if negb (bg =? color) then fill_cmds W H (x + 5 * size) y size (8 * size) bg else []).

(** [Adafruit_GFX::write(c)] for the built-in font: newline, carriage
    return, wrap at the right edge, draw, advance the cursor. *)
Definition write (ch : Z) : gfx unit := fun c =>
  let s := textsize c in
  if ch =? 10 then (tt, [], set_cursor c 0 (cursor_y c + s * 8))
  else if ch =? 13 then (tt, [], c)
  else
    let '(cx, cy) :=
      if wrap c && (width c <? cursor_x c + s * 6)
      then (0, cursor_y c + s * 8) else (cursor_x c, cursor_y c) in
    (tt, char_cmds (width c) (height c) cx cy ch (textcolor c) (textbgcolor c) s,
     set_cursor c (cx + s * 6) cy).

Fixpoint write_chars (l : list ascii) : gfx unit :=
  match l with
  | [] => ret tt
  | a :: l' => write (Z.of_nat (nat_of_ascii a)) ;; write_chars l'
  end.

(** [Print::print(const char* )]: one [write] per character. *)
Definition print (s : string) : gfx unit := write_chars (list_ascii_of_string s).
End WithFont.

(** ** The framebuffer algebra *)

#[export] Instance fb_eq_Equivalence : Equivalence fb_eq.
Proof.
  split; [intros f x y; reflexivity | intros f g H x y; now rewrite H |
          intros f g h H1 H2 x y; now rewrite H1, H2].
Qed.

(** The pixel after a command list: the last command covering it, or
    the old colour. *)
Lemma apply_paints_pixel ps fb x y :
  apply_paints ps fb x y = match last_cover ps x y with Some c => c | None => fb x y end.
Proof.
  revert fb. induction ps as [|p ps IH]; intros fb; [reflexivity|].
  unfold apply_paints in *. simpl. rewrite IH.
  destruct (last_cover ps x y); [reflexivity|]. unfold paint_fb.
  destruct (in_rect (p_rect p) x y); reflexivity.
Qed.

Lemma apply_paints_app ps1 ps2 fb :
  apply_paints (ps1 ++ ps2) fb = apply_paints ps2 (apply_paints ps1 fb).
Proof. apply fold_left_app. Qed.

Lemma last_cover_app ps1 ps2 x y :
  last_cover (ps1 ++ ps2) x y =
  match last_cover ps2 x y with Some c => Some c | None => last_cover ps1 x y end.
Proof.
  induction ps1 as [|p ps1 IH]; simpl.
  - destruct (last_cover ps2 x y); reflexivity.
  - rewrite IH. destruct (last_cover ps2 x y); reflexivity.
Qed.

(** A covered pixel no longer depends on what was there. *)
Lemma apply_paints_covered ps f g x y c :
  last_cover ps x y = Some c -> apply_paints ps f x y = apply_paints ps g x y.
Proof. intros H. rewrite !apply_paints_pixel, H. reflexivity. Qed.

(** An uncovered pixel keeps its colour. *)
Lemma apply_paints_untouched ps f x y :
  last_cover ps x y = None -> apply_paints ps f x y = f x y.
Proof. intros H. rewrite apply_paints_pixel, H. reflexivity. Qed.

(** Replaying a command list changes nothing: the commands never read
    the framebuffer. *)
Lemma apply_paints_idem ps fb : fb_eq (apply_paints ps (apply_paints ps fb)) (apply_paints ps fb).
Proof.
  intros x y. rewrite !apply_paints_pixel. destruct (last_cover ps x y); reflexivity.
Qed.

#[export] Instance apply_paints_Proper : Proper (eq ==> fb_eq ==> fb_eq) apply_paints.
Proof.
  intros ps ps' <- f g Hfg x y. rewrite !apply_paints_pixel, Hfg. reflexivity.
Qed.

(** ** The state equivalence *)

Definition tft_eq (s t : tft) : Prop := fb_eq (gram s) (gram t) /\ conf s = conf t.

#[export] Instance tft_eq_Equivalence : Equivalence tft_eq.
Proof.
  split.
  - intros s. split; reflexivity.
  - intros s t [H1 H2]. split; symmetry; assumption.
  - intros s t u [H1 H2] [H3 H4]. split; [etransitivity; eassumption | congruence].
Qed.

#[export] Instance exec_Proper {A} (m : gfx A) : Proper (tft_eq ==> tft_eq) (exec m).
Proof.
  intros [f c] [g c'] [Hfg Hc]. simpl in *. subst c'. unfold exec, run. simpl.
  destruct (m c) as [[a ps] c1]. split; simpl; [now rewrite Hfg | reflexivity].
Qed.

Lemma run_bind {A B} (m : gfx A) (k : A -> gfx B) s :
  run (bind m k) s = let '(a, s1) := run m s in run (k a) s1.
Proof.
  destruct s as [fb c]. unfold run, bind. simpl.
  destruct (m c) as [[a ps1] c1]. simpl.
  destruct (k a c1) as [[b ps2] c2]. rewrite apply_paints_app. reflexivity.
Qed.

(** The output of a program as a function of the configuration only. *)
Definition paints_of {A} (m : gfx A) (c : cfg) : list paint := snd (fst (m c)).
Definition cfg_of {A} (m : gfx A) (c : cfg) : cfg := snd (m c).

Lemma exec_spec {A} (m : gfx A) s :
  exec m s = Tft (apply_paints (paints_of m (conf s)) (gram s)) (cfg_of m (conf s)).
Proof.
  unfold exec, run, paints_of, cfg_of. destruct (m (conf s)) as [[a ps] c]. reflexivity.
Qed.

Lemma paints_of_bind {A B} (m : gfx A) (k : A -> gfx B) c :
  paints_of (bind m k) c = paints_of m c ++ paints_of (k (fst (fst (m c)))) (cfg_of m c).
Proof.
  unfold paints_of, cfg_of, bind. destruct (m c) as [[a ps1] c1]. simpl.
  destruct (k a c1) as [[b ps2] c2]. reflexivity.
Qed.

Lemma cfg_of_bind {A B} (m : gfx A) (k : A -> gfx B) c :
  cfg_of (bind m k) c = cfg_of (k (fst (fst (m c)))) (cfg_of m c).
Proof.
  unfold cfg_of, bind. destruct (m c) as [[a ps1] c1]. simpl.
  destruct (k a c1) as [[b ps2] c2]. reflexivity.
Qed.

(** ** Clipping *)

(** [fillRect] with a positive size paints exactly the part of its
    rectangle that lies on the screen. *)
Lemma fill_cmds_cover W H x y w h c px py :
  0 < w -> 0 < h ->
  last_cover (fill_cmds W H x y w h c) px py =
  if in_rect (Rect x y w h) px py && in_rect (Rect 0 0 W H) px py then Some c else None.
Proof.
  intros Hw Hh. unfold fill_cmds, clip_rect.
  destruct ((w =? 0) || (h =? 0)) eqn:E0; [Zbool; lia|].
  destruct (w <? 0) eqn:E1; [Zbool; lia|]. destruct (h <? 0) eqn:E2; [Zbool; lia|].
  destruct (in_rect (Rect x y w h) px py && in_rect (Rect 0 0 W H) px py) eqn:Ein;
    [rewrite andb_true_iff, !in_rect_spec in Ein; simpl in Ein
    |apply not_true_iff_false in Ein; rewrite andb_true_iff, !in_rect_spec in Ein; simpl in Ein];
  repeat match goal with
  | |- context [if ?b then _ else _] => destruct b eqn:?
  end; simpl; Zbool; try (exfalso; lia); try reflexivity;
  match goal with
  | |- context [in_rect ?r px py] =>
      destruct (in_rect r px py) eqn:Er;
      [apply in_rect_spec in Er | apply not_true_iff_false in Er; rewrite in_rect_spec in Er];
      simpl in Er; first [reflexivity | exfalso; lia]
  end.
Qed.

(** ** Monad laws, pointwise *)

Lemma bind_ret_l {A B} (a : A) (k : A -> gfx B) c : bind (ret a) k c = k a c.
Proof. unfold bind, ret. destruct (k a c) as [[b ps] c']. reflexivity. Qed.

Lemma bind_assoc {A B C} (m : gfx A) (k : A -> gfx B) (k' : B -> gfx C) c :
  bind (bind m k) k' c = bind m (fun a => bind (k a) k') c.
Proof.
  unfold bind. destruct (m c) as [[a ps1] c1]. destruct (k a c1) as [[b ps2] c2].
  destruct (k' b c2) as [[d ps3] c3]. rewrite app_assoc. reflexivity.
Qed.

Lemma bind_ext {A B} (m : gfx A) (k k' : A -> gfx B) c :
  (forall a c', k a c' = k' a c') -> bind m k c = bind m k' c.
Proof. intros H. unfold bind. destruct (m c) as [[a ps1] c1]. now rewrite H. Qed.

(** ** Programs that only read the frame *)

(** The part of the configuration a text or fill program cannot change:
    the logical size, the rotation and the wrap flag. *)
Definition frame (c : cfg) : Z * Z * Z * bool := (width c, height c, rotation c, wrap c).

(** A program that reads only the frame of the configuration, and keeps
    it, may be replayed: the second run repaints the same pixels. *)
Lemma exec_idem {A} (m : gfx A) :
  (forall c c', frame c = frame c' -> m c = m c') ->
  (forall c, frame (cfg_of m c) = frame c) ->
  forall s, tft_eq (exec m (exec m s)) (exec m s).
Proof.
  intros Hdep Hpres s. rewrite !exec_spec. cbn [gram conf].
  set (c1 := cfg_of m (conf s)).
  assert (E : m c1 = m (conf s)) by (apply Hdep, Hpres).
  change (paints_of m c1) with (snd (fst (m c1))). change (cfg_of m c1) with (snd (m c1)).
  rewrite E. split; [apply apply_paints_idem | reflexivity].
Qed.

(** ** Footprints *)

(** Every pixel a command list paints lies in [r]. *)
Definition covers_only (r : rect) (ps : list paint) : Prop :=
  forall x y, last_cover ps x y <> None -> in_rect r x y = true.

Lemma covers_only_nil r : covers_only r [].
Proof. intros x y H. now contradiction H. Qed.

Lemma covers_only_app r ps1 ps2 :
  covers_only r ps1 -> covers_only r ps2 -> covers_only r (ps1 ++ ps2).
Proof.
  intros H1 H2 x y. rewrite last_cover_app.
  destruct (last_cover ps2 x y) eqn:E; [intros _; apply H2; congruence | apply H1].
Qed.

Lemma covers_only_flat_map {A} r (f : A -> list paint) l :
  (forall a, In a l -> covers_only r (f a)) -> covers_only r (flat_map f l).
Proof.
  induction l as [|a l IH]; intros H; simpl; [apply covers_only_nil|].
  apply covers_only_app; [apply H; now left | apply IH; intros; apply H; now right].
Qed.

Lemma covers_only_sub r r' ps : covers_only r ps -> rect_sub r r' = true -> covers_only r' ps.
Proof. intros H Hs x y Hc. eapply rect_sub_spec; eauto. Qed.

Lemma covers_only_untouched r ps fb x y :
  covers_only r ps -> in_rect r x y = false -> apply_paints ps fb x y = fb x y.
Proof.
  intros H Hout. apply apply_paints_untouched.
  destruct (last_cover ps x y) eqn:E; [|reflexivity].
  exfalso. rewrite (H x y ltac:(congruence)) in Hout. discriminate.
Qed.

Lemma fill_cmds_covers W H x y w h c :
  0 < w -> 0 < h -> covers_only (Rect x y w h) (fill_cmds W H x y w h c).
Proof.
  intros Hw Hh px py. rewrite fill_cmds_cover by assumption.
  destruct (in_rect (Rect x y w h) px py) eqn:E; [reflexivity | simpl; congruence].
Qed.

Lemma pixel_cmds_covers W H x y c : covers_only (Rect x y 1 1) (pixel_cmds W H x y c).
Proof.
  intros px py. unfold pixel_cmds.
  destruct (⟪ 0 , x , W ⟫ && ⟪ 0 , y , H ⟫); simpl; [|congruence].
  destruct (in_rect (Rect x y 1 1) px py); congruence.
Qed.

#[export] Hint Resolve covers_only_nil covers_only_app fill_cmds_covers pixel_cmds_covers : esp.

Lemma In_Zseq i n : In i (Zseq n) -> 0 <= i < Z.of_nat n.
Proof. unfold Zseq. rewrite in_map_iff. intros [k [<- Hk]]. apply in_seq in Hk. lia. Qed.

(** A character paints only inside its [6 size x 8 size] cell. *)
Lemma char_cmds_covers font W H x y ch color bg size :
  1 <= size -> covers_only (Rect x y (6 * size) (8 * size)) (char_cmds font W H x y ch color bg size).
Proof.
  intros Hs. unfold char_cmds. cbv beta zeta.
  destruct (_ || _ || _ || _); [apply covers_only_nil|].
  apply covers_only_app.
  - apply covers_only_flat_map; intros i Hi; apply In_Zseq in Hi.
    apply covers_only_flat_map; intros j Hj; apply In_Zseq in Hj. cbn in Hi, Hj.
    assert (Hblk : forall col, covers_only (Rect x y (6 * size) (8 * size))
      (if size =? 1 then pixel_cmds W H (x + i * size) (y + j * size) col
       else fill_cmds W H (x + i * size) (y + j * size) size size col)).
    { intros col. destruct (size =? 1) eqn:E1; Zbool.
      - eapply covers_only_sub; [apply pixel_cmds_covers|]. unfold rect_sub; cbn [rx ry rw rh]. subst size. Zbool_goal_nia.
      - eapply covers_only_sub; [apply fill_cmds_covers; lia|]. unfold rect_sub; cbn [rx ry rw rh]. Zbool_goal_nia. }
    destruct (Z.testbit _ _); [apply Hblk|].
    destruct (negb _); [apply Hblk | apply covers_only_nil].
  - destruct (negb (bg =? color)); [|apply covers_only_nil].
    eapply covers_only_sub; [apply fill_cmds_covers; lia|]. unfold rect_sub; cbn [rx ry rw rh]. Zbool_goal_nia.
Qed.

(** Characters that are not control characters. *)
Definition printable (l : list ascii) : bool :=
  forallb (fun a => (32 <=? nat_of_ascii a)%nat) l.

Lemma printable_Forall l :
  printable l = true <-> Forall (fun a => (32 <= nat_of_ascii a)%nat) l.
Proof.
  unfold printable. rewrite forallb_forall, Forall_forall.
  split; intros H a Ha; specialize (H a Ha); [apply Nat.leb_le | apply Nat.leb_le in H]; exact H.
Qed.

Lemma printable_app l1 l2 : printable (l1 ++ l2) = printable l1 && printable l2.
Proof. apply forallb_app. Qed.

Lemma set_cursor_twice c x y x' y' : set_cursor (set_cursor c x y) x' y' = set_cursor c x' y'.
Proof. reflexivity. Qed.

(** A printable character that fits on the line is drawn at the cursor,
    which then moves one cell right. *)
Lemma write_printable font ch c :
  32 <= ch -> cursor_x c + textsize c * 6 <= width c ->
  write font ch c = (tt, char_cmds font (width c) (height c) (cursor_x c) (cursor_y c) ch
                            (textcolor c) (textbgcolor c) (textsize c),
                     set_cursor c (cursor_x c + textsize c * 6) (cursor_y c)).
Proof.
  intros Hch Hw. unfold write.
  destruct (ch =? 10) eqn:E1; Zbool; [lia|]. destruct (ch =? 13) eqn:E2; Zbool; [lia|].
  destruct (wrap c && (width c <? cursor_x c + textsize c * 6)) eqn:E3; [|reflexivity].
  Zbool. lia.
Qed.

(** A printable string that fits on the line draws only
    inside the row of cells starting at the cursor, does not wrap, and
    leaves the cursor just after its last cell. *)
Lemma write_chars_text font l c :
  1 <= textsize c -> printable l = true ->
  cursor_x c + 6 * textsize c * Z.of_nat (List.length l) <= width c ->
  covers_only (Rect (cursor_x c) (cursor_y c) (6 * textsize c * Z.of_nat (List.length l)) (8 * textsize c))
              (paints_of (write_chars font l) c) /\
  cfg_of (write_chars font l) c =
  set_cursor c (cursor_x c + 6 * textsize c * Z.of_nat (List.length l)) (cursor_y c).
Proof.
  revert c. induction l as [|a l IH]; intros c Hs Hp Hw.
  - split; [apply covers_only_nil|]. destruct c. unfold cfg_of, set_cursor. simpl. f_equal. lia.
  - cbn [printable forallb] in Hp. apply andb_true_iff in Hp as [Ha Hp]. apply Nat.leb_le in Ha.
    cbn [write_chars]. rewrite paints_of_bind, cfg_of_bind.
    cbn [List.length] in Hw. rewrite Nat2Z.inj_succ in Hw.
    assert (Hwr := write_printable font (Z.of_nat (nat_of_ascii a)) c ltac:(lia) ltac:(nia)).
    assert (Ep : paints_of (write font (Z.of_nat (nat_of_ascii a))) c =
                 char_cmds font (width c) (height c) (cursor_x c) (cursor_y c)
                   (Z.of_nat (nat_of_ascii a)) (textcolor c) (textbgcolor c) (textsize c))
      by (unfold paints_of; now rewrite Hwr).
    assert (Ec : cfg_of (write font (Z.of_nat (nat_of_ascii a))) c =
                 set_cursor c (cursor_x c + textsize c * 6) (cursor_y c))
      by (unfold cfg_of; now rewrite Hwr).
    rewrite Ep, Ec.
    destruct (IH (set_cursor c (cursor_x c + textsize c * 6) (cursor_y c))) as [Hc Hcfg];
      cbn [cursor_x cursor_y textsize width set_cursor]; [lia | exact Hp | nia |].
    cbn [cursor_x cursor_y textsize width set_cursor] in Hc, Hcfg.
    split.
    + apply covers_only_app.
      * eapply covers_only_sub; [apply char_cmds_covers; lia|].
        unfold rect_sub; cbn [rx ry rw rh List.length]. rewrite Nat2Z.inj_succ. Zbool_goal_nia.
      * eapply covers_only_sub; [exact Hc|].
        unfold rect_sub; cbn [rx ry rw rh List.length]. rewrite Nat2Z.inj_succ. Zbool_goal_nia.
    + rewrite Hcfg, set_cursor_twice. cbn [List.length]. rewrite Nat2Z.inj_succ. f_equal. ring.
Qed.

Lemma write_chars_text_example :
  cfg_of (write_chars (fun _ => 0) (list_ascii_of_string "ab")) cfg_init =
  set_cursor cfg_init 12 0.
Proof.
  destruct (write_chars_text (fun _ => 0) (list_ascii_of_string "ab") cfg_init)
    as [_ H]; [vm_compute; congruence | reflexivity | vm_compute; congruence | exact H].
Defined.

Lemma write_chars_app font l1 l2 c :
  write_chars font (l1 ++ l2) c = (write_chars font l1 ;; write_chars font l2) c.
Proof.
  revert c. induction l1 as [|a l1 IH]; intros c; simpl.
  - unfold bind, ret. destruct (write_chars font l2 c) as [[u ps] c2]. reflexivity.
  - rewrite bind_assoc. apply bind_ext. intros _ c'. apply IH.
Qed.

(** Text output moves the cursor and nothing else of the frame. *)
Lemma write_frame font ch c : frame (cfg_of (write font ch) c) = frame c.
Proof.
  unfold cfg_of, write.
  destruct (ch =? 10); [reflexivity|]. destruct (ch =? 13); [reflexivity|].
  destruct (wrap c && (width c <? cursor_x c + textsize c * 6)); reflexivity.
Qed.

Lemma write_chars_frame font l c : frame (cfg_of (write_chars font l) c) = frame c.
Proof.
  revert c. induction l as [|a l IH]; intros c; [reflexivity|].
  cbn [write_chars]. rewrite cfg_of_bind, IH. apply write_frame.
Qed.

(** ** Programs that keep the frame *)

Definition keeps_frame {A} (m : gfx A) : Prop := forall c, frame (cfg_of m c) = frame c.

Lemma keeps_frame_bind {A B} (m : gfx A) (k : A -> gfx B) :
  keeps_frame m -> (forall a, keeps_frame (k a)) -> keeps_frame (bind m k).
Proof. intros Hm Hk c. rewrite cfg_of_bind, Hk. apply Hm. Qed.

Lemma keeps_frame_ret {A} (a : A) : keeps_frame (ret a).
Proof. intros c. reflexivity. Qed.

Lemma keeps_frame_fillRect x y w h col : keeps_frame (fillRect x y w h col).
Proof. intros c. reflexivity. Qed.

Lemma keeps_frame_fillScreen col : keeps_frame (fillScreen col).
Proof. intros c. reflexivity. Qed.

Lemma keeps_frame_get_width : keeps_frame get_width.
Proof. intros c. reflexivity. Qed.

Lemma keeps_frame_setTextSize s : keeps_frame (setTextSize s).
Proof. intros c. reflexivity. Qed.

Lemma keeps_frame_setTextColor fg bg : keeps_frame (setTextColor fg bg).
Proof. intros c. reflexivity. Qed.

Lemma keeps_frame_setCursor x y : keeps_frame (setCursor x y).
Proof. intros c. reflexivity. Qed.

Lemma keeps_frame_print font s : keeps_frame (print font s).
Proof. intros c. apply write_chars_frame. Qed.

Lemma keeps_frame_write font ch : keeps_frame (write font ch).
Proof. intros c. apply write_frame. Qed.

#[export] Hint Resolve keeps_frame_write keeps_frame_bind keeps_frame_ret keeps_frame_fillRect keeps_frame_fillScreen
  keeps_frame_get_width keeps_frame_setTextSize keeps_frame_setTextColor keeps_frame_setCursor
  keeps_frame_print : esp.

(** Prove [keeps_frame] of a program built from the primitives. *)
Ltac solve_keeps_frame :=
  repeat (apply keeps_frame_bind; [|intros]); auto with esp.

Lemma exec_seq (m : gfx Datatypes.unit) {B} (k : gfx B) s : exec (m ;; k) s = exec k (exec m s).
Proof.
  unfold exec. rewrite run_bind. destruct (run m s) as [a s1]. reflexivity.
Qed.

Lemma exec_keeps_frame {A} (m : gfx A) s : keeps_frame m -> frame (conf (exec m s)) = frame (conf s).
Proof. intros H. rewrite exec_spec. apply H. Qed.

Lemma frame_width c w h r b : frame c = (w, h, r, b) -> width c = w.
Proof. unfold frame. intros E. now injection E. Qed.

(** ** Programs that keep out of a region

    [avoids r ps]: no command of [ps] paints a pixel of [r]. It is the
    dual of [covers_only] and composes along [bind]. *)

Definition avoids (r : rect) (ps : list paint) : Prop :=
  forall x y, in_rect r x y = true -> last_cover ps x y = None.

Lemma avoids_nil r : avoids r [].
Proof. intros x y _. reflexivity. Qed.

Lemma avoids_app r ps1 ps2 : avoids r ps1 -> avoids r ps2 -> avoids r (ps1 ++ ps2).
Proof. intros H1 H2 x y Hin. rewrite last_cover_app, (H2 x y Hin). apply H1, Hin. Qed.

Lemma avoids_bind {A B} r (m : gfx A) (k : A -> gfx B) c :
  avoids r (paints_of m c) -> avoids r (paints_of (k (fst (fst (m c)))) (cfg_of m c)) ->
  avoids r (paints_of (bind m k) c).
Proof. rewrite paints_of_bind. apply avoids_app. Qed.

Lemma covers_only_avoids r r' ps : covers_only r' ps -> rect_disjoint r' r = true -> avoids r ps.
Proof.
  intros H Hd x y Hin. destruct (last_cover ps x y) eqn:E; [|reflexivity]. exfalso.
  rewrite (rect_disjoint_spec r' r x y Hd (H x y ltac:(congruence))) in Hin. discriminate.
Qed.

Lemma avoids_untouched r ps fb x y :
  avoids r ps -> in_rect r x y = true -> apply_paints ps fb x y = fb x y.
Proof. intros H Hin. apply apply_paints_untouched, H, Hin. Qed.

Lemma avoids_pixel ps x y : avoids (Rect x y 1 1) ps -> last_cover ps x y = None.
Proof. intros H. apply H, in_rect_spec. cbn. lia. Qed.

(** A string printed on one line from the cursor, without wrapping,
    keeps out of every region disjoint from its text cells. *)
Lemma print_avoids font s c r :
  1 <= textsize c -> printable (list_ascii_of_string s) = true ->
  cursor_x c + 6 * textsize c * Z.of_nat (List.length (list_ascii_of_string s)) <= width c ->
  rect_disjoint (Rect (cursor_x c) (cursor_y c)
                   (6 * textsize c * Z.of_nat (List.length (list_ascii_of_string s))) (8 * textsize c)) r = true ->
  avoids r (paints_of (print font s) c).
Proof.
  intros Hs Hp Hw Hd. destruct (write_chars_text font _ c Hs Hp Hw) as [Hc _].
  exact (covers_only_avoids _ _ _ Hc Hd).
Qed.

Lemma print_then_avoids {B} font s (k : gfx B) c r :
  1 <= textsize c -> printable (list_ascii_of_string s) = true ->
  cursor_x c + 6 * textsize c * Z.of_nat (List.length (list_ascii_of_string s)) <= width c ->
  rect_disjoint (Rect (cursor_x c) (cursor_y c)
                   (6 * textsize c * Z.of_nat (List.length (list_ascii_of_string s))) (8 * textsize c)) r = true ->
  avoids r (paints_of k (set_cursor c (cursor_x c + 6 * textsize c *
                                        Z.of_nat (List.length (list_ascii_of_string s))) (cursor_y c))) ->
  avoids r (paints_of (print font s ;; k) c).
Proof.
  intros Hs Hp Hw Hd Hk. destruct (write_chars_text font _ c Hs Hp Hw) as [_ Hcfg].
  apply avoids_bind; [now apply print_avoids|]. cbv beta.
  change (cfg_of (print font s) c) with (cfg_of (write_chars font (list_ascii_of_string s)) c).
  rewrite Hcfg. exact Hk.
Qed.

End Tft.
