(* ===== verification/PrintFloat.v ===== *)
(** * PrintFloat: Arduino's [Print::print(double, digits)]

    [printValue] (main.cpp 87) calls [tft.print(value, decimals)], which
    is [Print::printFloat] of the ESP32 Arduino core (not under [src/]).
    Its decimal output is [Print::printNumber]. The spec (4.3, scenario 5)
    asks for "fixed decimal places", e.g. 23.47 with one decimal shows
    "23.5". The model follows the core's algorithm on the reals:

    - print "ovf" beyond +-4294967040;
    - print a '-' and negate a negative number;
    - add [0.5 / 10^digits];
    - print the [unsigned long] integer part;
    - print a '.' if [digits > 0];
    - print [digits] digits of the remainder, one [int] at a time.

    [nan] and [inf] do not exist in [R] and are not modelled. The two C
    casts truncate toward zero ([trunc_R]). *)

From Stdlib Require Import Reals Lra Lia ZArith Zfloor String Ascii.
From Stdlib Require List.
From S2P Require Import Prelude.
Open Scope R_scope.

Module PrintFloat.

(** ** [Print::printNumber(n, 10)] *)

Definition digit_char (d : Z) : ascii := ascii_of_nat (48 + Z.to_nat d).

(** The [do { ... } while (n)] loop, filling the buffer from its end.
    The fuel is the size of the buffer, [8 * sizeof(long) = 32]. *)
Fixpoint printNumber_loop (fuel : nat) (n : Z) (acc : string) : string :=
  match fuel with
  | O => acc
  | S f =>
      let n' := (n / 10)%Z in
      let c := (n - 10 * n')%Z in
      let acc' := String (digit_char c) acc in
      if (n' =? 0)%Z then acc' else printNumber_loop f n' acc'
  end.

Definition printNumber (n : Z) : string := printNumber_loop 32 n EmptyString.

(** [Print::print(long n, 10)]. *)
Definition print_long (n : Z) : string :=
  if (n <? 0)%Z then String "-" (printNumber (- n)) else printNumber n.

(** ** [Print::printFloat(number, digits)] *)

(** C's conversion of a [double] to an integer type: truncation. *)
Definition trunc_R (r : R) : Z := if Rle_dec 0 r then Zfloor r else (- Zfloor (- r))%Z.

Definition OVF_BOUND : R := 4294967040.

(** [rounding = 0.5; for (i = 0; i < digits; ++i) rounding /= 10.0;] *)
Fixpoint rounding (digits : nat) : R :=
  match digits with
  | O => / 2
  | S d => rounding d / 10
  end.

(** [while (digits-- > 0) { remainder *= 10.0; int toPrint = int(remainder);
    n += print(toPrint); remainder -= toPrint; }] *)
Fixpoint frac_digits (digits : nat) (remainder : R) : string :=
  match digits with
  | O => EmptyString
  | S d =>
      let r := remainder * 10 in
      let toPrint := trunc_R r in
      print_long toPrint ++ frac_digits d (r - IZR toPrint)
  end.

Definition printFloat (number : R) (digits : nat) : string :=
  if Rlt_dec OVF_BOUND number then "ovf"%string
  else if Rlt_dec number (- OVF_BOUND) then "ovf"%string
  else
    let '(sign, number) :=
      if Rlt_dec number 0 then ("-"%string, - number) else (EmptyString, number) in
    let number := number + rounding digits in
    let int_part := trunc_R number in
    let remainder := number - IZR int_part in
    sign ++ printNumber int_part ++ (if Nat.ltb 0 digits then "."%string else EmptyString)
         ++ frac_digits digits remainder.

(** ** Reference decimal strings *)

(** The [d] lowest decimal digits of [m], zero-padded, most significant
    first. *)
Fixpoint pad_digits (d : nat) (m : Z) : string :=
  match d with
  | O => EmptyString
  | S d' => String (digit_char ((m / 10 ^ Z.of_nat d') mod 10)) (pad_digits d' m)
  end.

(** The number a string of decimal digits denotes. *)
Fixpoint digits_value_acc (acc : Z) (s : string) : Z :=
  match s with
  | EmptyString => acc
  | String c s' => digits_value_acc (acc * 10 + (Z.of_nat (nat_of_ascii c) - 48)) s'
  end.

Definition digits_value (s : string) : Z := digits_value_acc 0 s.

(** ** Lemmas on the decimal strings *)

Lemma digit_char_value c : (0 <= c < 10)%Z -> (Z.of_nat (nat_of_ascii (digit_char c)) - 48 = c)%Z.
Proof.
  intros Hc. unfold digit_char. rewrite nat_ascii_embedding by lia. lia.
Qed.

Lemma pow10_pos (d : nat) : (0 < 10 ^ Z.of_nat d)%Z.
Proof. apply Z.pow_pos_nonneg; lia. Qed.

Lemma pow10_succ (d : nat) : (10 ^ Z.of_nat (S d) = 10 * 10 ^ Z.of_nat d)%Z.
Proof. rewrite Nat2Z.inj_succ, Z.pow_succ_r by lia. reflexivity. Qed.

Lemma pow10_IZR (d : nat) : IZR (10 ^ Z.of_nat d) = 10 ^ d.
Proof. rewrite <- pow_IZR. reflexivity. Qed.

Lemma pow10_R_pos (d : nat) : 0 < 10 ^ d.
Proof. apply pow_lt. lra. Qed.

#[export] Hint Resolve pow10_pos pow10_R_pos : esp.

Lemma digits_value_acc_shift acc s :
  digits_value_acc acc s = (acc * 10 ^ Z.of_nat (String.length s) + digits_value s)%Z.
Proof.
  unfold digits_value. revert acc. induction s as [|c s IH]; intros acc; cbn [digits_value_acc String.length].
  - lia.
  - rewrite (IH (acc * 10 + _)%Z), (IH (0 * 10 + _)%Z), pow10_succ. ring.
Qed.

(** The loop of [printNumber] prepends the decimal digits of [n]. *)
Lemma printNumber_loop_value fuel n acc :
  (0 <= n < 10 ^ Z.of_nat fuel)%Z ->
  digits_value (printNumber_loop fuel n acc) =
  (n * 10 ^ Z.of_nat (String.length acc) + digits_value acc)%Z.
Proof.
  revert n acc. induction fuel as [|f IH]; intros n acc Hn; cbn [printNumber_loop].
  - change (10 ^ Z.of_nat 0)%Z with 1%Z in Hn. replace n with 0%Z by lia. lia.
  - rewrite pow10_succ in Hn.
    assert (Hc : (0 <= n - 10 * (n / 10) < 10)%Z)
      by (pose proof (Z.mod_pos_bound n 10); rewrite Z.mod_eq in *; lia).
    assert (Hacc : digits_value (String (digit_char (n - 10 * (n / 10))) acc) =
                   ((n - 10 * (n / 10)) * 10 ^ Z.of_nat (String.length acc) + digits_value acc)%Z).
    { unfold digits_value at 1. cbn [digits_value_acc].
      rewrite digits_value_acc_shift, digit_char_value by exact Hc. lia. }
    destruct (n / 10 =? 0)%Z eqn:E; Zbool.
    + rewrite Hacc, E. lia.
    + rewrite IH by (split; [apply Z.div_pos | apply Z.div_lt_upper_bound]; lia).
      rewrite Hacc. cbn [String.length]. rewrite pow10_succ. ring.
Qed.

(** [printNumber] prints the decimal digits of every number its buffer
    can hold, in particular of every [unsigned long]. *)
Lemma printNumber_value n : (0 <= n < 10 ^ 32)%Z -> digits_value (printNumber n) = n.
Proof.
  intros Hn. unfold printNumber. rewrite printNumber_loop_value by exact Hn.
  unfold digits_value. cbn [digits_value_acc String.length]. rewrite Z.pow_0_r. lia.
Qed.

Lemma printNumber_max_ulong : digits_value (printNumber 4294967295) = 4294967295%Z.
Proof. apply printNumber_value. lia. Defined.

Lemma printNumber_loop_length fuel n acc k :
  (0 <= n < 10 ^ Z.of_nat k)%Z -> (1 <= k)%nat ->
  (String.length (printNumber_loop fuel n acc) <= k + String.length acc)%nat.
Proof.
  revert n acc k. induction fuel as [|f IH]; intros n acc k Hn Hk; simpl; [lia|].
  destruct (n / 10 =? 0)%Z eqn:E; Zbool; simpl; [lia|].
  destruct k as [|[|k]]; [lia| simpl in Hn; pose proof (Z.div_small n 10); lia |].
  rewrite pow10_succ in Hn.
  specialize (IH (n / 10)%Z (String (digit_char (n - 10 * (n / 10))) acc) (S k)).
  simpl in IH. apply Nat.le_trans with (S k + S (String.length acc))%nat; [|lia].
  apply IH; [split; [apply Z.div_pos | apply Z.div_lt_upper_bound]; lia | lia].
Qed.

(** [printNumber] of a number below [10^k] has at most [k] digits. *)
Lemma printNumber_length n k :
  (0 <= n < 10 ^ Z.of_nat k)%Z -> (1 <= k)%nat -> (String.length (printNumber n) <= k)%nat.
Proof.
  intros Hn Hk. pose proof (printNumber_loop_length 32 n EmptyString k Hn Hk) as H.
  cbn [String.length] in H. unfold printNumber. lia.
Qed.

Lemma printNumber_digit t : (0 <= t < 10)%Z -> printNumber t = String (digit_char t) EmptyString.
Proof.
  intros Ht. unfold printNumber, printNumber_loop.
  rewrite (Z.div_small t 10) by lia. simpl. rewrite Z.sub_0_r. reflexivity.
Qed.

Lemma pad_digits_length d m : String.length (pad_digits d m) = d.
Proof. induction d; simpl; congruence. Qed.

(** Digits above the [d] lowest do not show in [pad_digits d]. *)
Lemma pad_digits_shift d c m : pad_digits d (c * 10 ^ Z.of_nat d + m)%Z = pad_digits d m.
Proof.
  revert c. induction d as [|d IH]; intros c; [reflexivity|].
  rewrite pow10_succ. cbn [pad_digits].
  replace (c * (10 * 10 ^ Z.of_nat d) + m)%Z with ((10 * c) * 10 ^ Z.of_nat d + m)%Z by ring.
  rewrite IH. f_equal. f_equal.
  rewrite Z.div_add_l by (pose proof (pow10_pos d); lia).
  rewrite Z.add_comm, Z.mul_comm, Z.mod_add by lia. reflexivity.
Qed.

(** ** Lemmas on the rounding *)

Lemma trunc_R_floor r : 0 <= r -> trunc_R r = Zfloor r.
Proof. intros H. unfold trunc_R. destruct (Rle_dec 0 r); [reflexivity | lra]. Qed.

Lemma rounding_eq d : rounding d = / 2 / 10 ^ d.
Proof.
  induction d as [|d IH]; simpl; [field|].
  rewrite IH. field. pose proof (pow10_R_pos d). lra.
Qed.

Lemma Zfloor_nonneg x : 0 <= x -> (0 <= Zfloor x)%Z.
Proof. intros H. apply Zfloor_lub. simpl. exact H. Qed.

(** The floor of a value in [[0, 10^d)] has at most [d] digits. *)
Lemma Zfloor_below_pow x d : 0 <= x < 10 ^ d -> (0 <= Zfloor x < 10 ^ Z.of_nat d)%Z.
Proof.
  intros Hx. split; [apply Zfloor_nonneg; lra|].
  pose proof (Zfloor_bound x). apply lt_IZR. rewrite pow10_IZR. lra.
Qed.

(** [remainder] digits: the digit loop prints the [d] first decimals of
    a remainder in [[0, 1)]. *)
Lemma frac_digits_spec d r : 0 <= r < 1 -> frac_digits d r = pad_digits d (Zfloor (r * 10 ^ d)).
Proof.
  revert r. induction d as [|d IH]; intros r Hr; [reflexivity|].
  simpl frac_digits. pose proof (Zfloor_bound (r * 10)) as Hb.
  set (t := Zfloor (r * 10)) in *.
  assert (Ht : (0 <= t < 10)%Z).
  { split; [apply Zfloor_nonneg; lra | apply lt_IZR; simpl; lra]. }
  rewrite trunc_R_floor by lra. fold t.
  unfold print_long. destruct (t <? 0)%Z eqn:E; [Zbool; lia|].
  rewrite printNumber_digit by exact Ht. simpl.
  rewrite IH by lra.
  pose proof (pow10_R_pos d) as Hp.
  assert (HM : Zfloor (r * (10 * 10 ^ d)) = (t * 10 ^ Z.of_nat d + Zfloor ((r * 10 - IZR t) * 10 ^ d))%Z).
  { replace (r * (10 * 10 ^ d)) with ((r * 10 - IZR t) * 10 ^ d + IZR (t * 10 ^ Z.of_nat d))
      by (rewrite mult_IZR, pow10_IZR; simpl; ring).
    rewrite Zfloor_addz. ring. }
  assert (HF := Zfloor_below_pow ((r * 10 - IZR t) * 10 ^ d) d ltac:(split; nra)).
  rewrite HM, pad_digits_shift. f_equal. f_equal.
  rewrite Z.div_add_l by lia. rewrite Z.div_small by lia. rewrite Z.add_0_r, Z.mod_small by lia.
  reflexivity.
Qed.

(** Splitting a non-negative number into its integer part and its
    remainder commutes with the scaling by [10^d]. *)
Lemma int_frac_split x d :
  0 <= x ->
  Zfloor (x * 10 ^ d) =
  (Zfloor x * 10 ^ Z.of_nat d + Zfloor ((x - IZR (Zfloor x)) * 10 ^ d))%Z /\
  (0 <= Zfloor ((x - IZR (Zfloor x)) * 10 ^ d) < 10 ^ Z.of_nat d)%Z.
Proof.
  intros Hx. pose proof (Zfloor_bound x). pose proof (pow10_R_pos d). split.
  - replace (x * 10 ^ d) with ((x - IZR (Zfloor x)) * 10 ^ d + IZR (Zfloor x * 10 ^ Z.of_nat d))
      by (rewrite mult_IZR, pow10_IZR; ring).
    rewrite Zfloor_addz. ring.
  - apply Zfloor_below_pow. split; nra.
Qed.

(** The body of [printFloat] after the sign: the integer part and the
    decimals of [floor(a 10^d + 1/2)]. *)
Lemma printFloat_body a d :
  0 <= a ->
  (printNumber (trunc_R (a + rounding d)) ++
   (if Nat.ltb 0 d then "."%string else EmptyString) ++
   frac_digits d (a + rounding d - IZR (trunc_R (a + rounding d))))%string =
  (printNumber (Zfloor (a * 10 ^ d + / 2) / 10 ^ Z.of_nat d) ++
   (if Nat.ltb 0 d then "."%string else EmptyString) ++
   pad_digits d (Zfloor (a * 10 ^ d + / 2) mod 10 ^ Z.of_nat d))%string.
Proof.
  intros Ha. pose proof (pow10_R_pos d) as Hp. pose proof (pow10_pos d) as Hpz.
  assert (Hr : 0 < rounding d) by (rewrite rounding_eq; apply Rdiv_lt_0_compat; lra).
  rewrite trunc_R_floor by lra.
  set (x := a + rounding d).
  destruct (int_frac_split x d ltac:(unfold x; lra)) as [HN HF].
  replace (a * 10 ^ d + / 2) with (x * 10 ^ d)
    by (unfold x; rewrite rounding_eq; field; lra).
  pose proof (Zfloor_bound x).
  rewrite frac_digits_spec by lra.
  rewrite HN, Z.div_add_l, (Z.div_small _ _ HF), Z.add_0_r by lia.
  rewrite Z.add_comm, Z.mod_add, Z.mod_small by lia.
  reflexivity.
Qed.

(** [printFloat] rounds half away from zero. For every number in
    the printable range, it prints a '-' for a negative number, then the
    integer part and the [d] decimals of [N = floor(|v| 10^d + 1/2)]. *)
Lemma printFloat_spec v d :
  - OVF_BOUND <= v <= OVF_BOUND ->
  printFloat v d =
  ((if Rlt_dec v 0 then "-"%string else EmptyString) ++
   printNumber (Zfloor (Rabs v * 10 ^ d + / 2) / 10 ^ Z.of_nat d) ++
   (if Nat.ltb 0 d then "."%string else EmptyString) ++
   pad_digits d (Zfloor (Rabs v * 10 ^ d + / 2) mod 10 ^ Z.of_nat d))%string.
Proof.
  intros Hv. unfold printFloat.
  destruct (Rlt_dec OVF_BOUND v); [unfold OVF_BOUND in *; lra|].
  destruct (Rlt_dec v (- OVF_BOUND)); [unfold OVF_BOUND in *; lra|].
  destruct (Rlt_dec v 0) as [Hneg|Hpos].
  - rewrite Rabs_left by exact Hneg. cbn [append]. f_equal. apply printFloat_body. lra.
  - rewrite Rabs_right by lra. apply printFloat_body. lra.
Qed.

(** Spec scenario 5: 23.47 with one decimal prints "23.5". *)
Lemma printFloat_23_47 : printFloat 23.47 1 = "23.5"%string.
Proof.
  rewrite printFloat_spec by (unfold OVF_BOUND; lra).
  replace (Zfloor (Rabs 23.47 * 10 ^ 1 + / 2)) with 235%Z.
  - destruct (Rlt_dec 23.47 0); [lra|]. vm_compute. reflexivity.
  - symmetry. apply Zfloor_eq. rewrite Rabs_right by lra. simpl. lra.
Defined.

(** A negative number that rounds to zero keeps its sign: every value
    in (-0.05, 0) prints as "-0.0" with one decimal. *)
Lemma printFloat_negative_zero v : - / 20 < v < 0 -> printFloat v 1 = "-0.0"%string.
Proof.
  intros Hv. rewrite printFloat_spec by (unfold OVF_BOUND; lra).
  destruct (Rlt_dec v 0); [|lra].
  replace (Zfloor (Rabs v * 10 ^ 1 + / 2)) with 0%Z.
  - vm_compute. reflexivity.
  - symmetry. apply Zfloor_eq. rewrite Rabs_left by lra. simpl. lra.
Qed.

Lemma printFloat_negative_zero_example : printFloat (- / 100) 1 = "-0.0"%string.
Proof. apply printFloat_negative_zero. lra. Defined.

(** With one decimal, a number below 999.95 in magnitude prints in at
    most six characters (sign, three digits, point, decimal). *)
Lemma printFloat_length_1 v : Rabs v < 999.95 -> (String.length (printFloat v 1) <= 6)%nat.
Proof.
  intros Hv. pose proof (Rabs_pos v).
  rewrite printFloat_spec by (destruct (Rabs_def2 v 999.95 Hv); unfold OVF_BOUND; lra).
  set (N := Zfloor (Rabs v * 10 ^ 1 + / 2)).
  assert (HN : (0 <= N < 10000)%Z).
  { pose proof (Zfloor_bound (Rabs v * 10 ^ 1 + / 2)). fold N in H0. simpl in H0.
    split; [apply Zfloor_nonneg; simpl; lra | apply lt_IZR; lra]. }
  rewrite !string_length_append, pad_digits_length.
  assert (String.length (printNumber (N / 10 ^ Z.of_nat 1)) <= 3)%nat.
  { apply printNumber_length; [|lia]. change (10 ^ Z.of_nat 1)%Z with 10%Z.
    change (10 ^ Z.of_nat 3)%Z with 1000%Z. split; [apply Z.div_pos | apply Z.div_lt_upper_bound]; lia. }
  destruct (Rlt_dec v 0); cbn [String.length Nat.ltb Nat.leb]; lia.
Qed.

(** ** The characters [printFloat] prints *)

Lemma list_ascii_of_string_app (s1 s2 : string) :
  list_ascii_of_string (s1 ++ s2) = (list_ascii_of_string s1 ++ list_ascii_of_string s2)%list.
Proof. induction s1 as [|a s1 IH]; simpl; [reflexivity | now rewrite IH]. Qed.

Lemma list_ascii_of_string_length (s : string) :
  List.length (list_ascii_of_string s) = String.length s.
Proof. induction s as [|a s IH]; simpl; [reflexivity | now rewrite IH]. Qed.

Section Chars.
(** A property of characters that every decimal digit has. *)
Variable P : ascii -> Prop.
Hypothesis P_digit : forall d, (0 <= d < 10)%Z -> P (digit_char d).

Lemma printNumber_loop_chars fuel n acc :
  (0 <= n)%Z -> List.Forall P (list_ascii_of_string acc) ->
  List.Forall P (list_ascii_of_string (printNumber_loop fuel n acc)).
Proof.
  revert n acc. induction fuel as [|f IH]; intros n acc Hn Hacc; cbn [printNumber_loop]; [exact Hacc|].
  assert (Hd : P (digit_char (n - 10 * (n / 10)))).
  { apply P_digit. pose proof (Z.mod_pos_bound n 10). rewrite Z.mod_eq in *; lia. }
  destruct (n / 10 =? 0)%Z; [now constructor|].
  apply IH; [apply Z.div_pos; lia | now constructor].
Qed.

Lemma pad_digits_chars d m : List.Forall P (list_ascii_of_string (pad_digits d m)).
Proof.
  induction d as [|d IH]; simpl; constructor; [|exact IH].
  apply P_digit. apply Z.mod_pos_bound. lia.
Qed.

(** Every character of a printed number is a digit, '-' or '.'. *)
Lemma printFloat_chars v d :
  P "-"%char -> P "."%char -> - OVF_BOUND <= v <= OVF_BOUND ->
  List.Forall P (list_ascii_of_string (printFloat v d)).
Proof.
  intros Hm Hdot Hv. rewrite printFloat_spec by exact Hv.
  rewrite !list_ascii_of_string_app, !List.Forall_app. repeat split.
  - destruct (Rlt_dec v 0); simpl; auto.
  - apply printNumber_loop_chars; [|constructor].
    apply Z.div_pos; [apply Zfloor_nonneg; pose proof (Rabs_pos v); pose proof (pow10_R_pos d); nra | apply pow10_pos].
  - destruct (Nat.ltb 0 d); simpl; auto.
  - apply pad_digits_chars.
Qed.
End Chars.

End PrintFloat.
