(* ===== verification/Estimator.v ===== *)
(** * Estimator: roll and pitch from the acceleration vector

    Lines 133-139 of [src/src/main.cpp]:
<<
    float roll  = atan2f(ay, az) * 180.0f / PI;
    float pitch = atan2f(-ax, sqrtf(ay * ay + az * az)) * 180.0f / PI;
>>
    Floats are modelled as real numbers (Stdlib [R]); [atan2f] is C's
    [atan2] on the reals, with its four quadrant branches and its two
    axis cases. Rounding and the sign of zero are not modelled. *)

From Stdlib Require Import Reals Lra Ratan.
From S2P Require Import Prelude.
Open Scope R_scope.

Module Estimator.

(** ** C's [atan2(y, x)] *)
Definition atan2 (y x : R) : R :=
  if Rlt_dec 0 x then atan (y / x)
  else if Rlt_dec x 0 then
    (if Rle_dec 0 y then atan (y / x) + PI else atan (y / x) - PI)
  else if Rlt_dec 0 y then PI / 2
  else if Rlt_dec y 0 then - (PI / 2)
  else 0.

(** ** The data of the loop *)

(** [a.acceleration] of the Adafruit [sensors_event_t], in m/s^2. *)
Record vec3 := Vec3 { ax : R; ay : R; az : R }.

Record orientation := Orientation { roll : R; pitch : R }.

(** The two angles in radians, before the conversion to degrees. *)
Definition roll_rad (a : vec3) : R := atan2 (ay a) (az a).
Definition pitch_rad (a : vec3) : R :=
  atan2 (- ax a) (sqrt (ay a * ay a + az a * az a)).

(** main.cpp 138-139: both angles times [180.0f / PI]. *)
Definition estimate (a : vec3) : orientation :=
  Orientation (roll_rad a * 180 / PI) (pitch_rad a * 180 / PI).

(** The abstract model of what the estimator inverts: the gravity
    vector of magnitude [g] seen by a device rolled by [phi] about its
    forward (x) axis and pitched by [theta] about its lateral axis. *)
Definition gravity_body (g phi theta : R) : vec3 :=
  Vec3 (- g * sin theta) (g * cos theta * sin phi) (g * cos theta * cos phi).

(** The acceleration vector scaled by [k]. *)
Definition vscale (k : R) (a : vec3) : vec3 := Vec3 (k * ax a) (k * ay a) (k * az a).

(** The magnitude of an acceleration vector. *)
Definition norm3 (a : vec3) : R := sqrt (ax a * ax a + ay a * ay a + az a * az a).

(** ** Trigonometric helpers *)

Lemma PI_pos : 0 < PI.
Proof. exact PI_RGT_0. Qed.

Lemma atan_nonpos t : t <= 0 -> atan t <= 0.
Proof.
  intros [H|H]; [|subst; rewrite atan_0; lra].
  rewrite <- atan_0. left. now apply atan_increasing.
Qed.

Lemma atan_pos t : 0 < t -> 0 < atan t.
Proof. intros H. rewrite <- atan_0. now apply atan_increasing. Qed.

Lemma cos_sub_PI a : cos (a - PI) = - cos a.
Proof. rewrite cos_minus, cos_PI, sin_PI. ring. Qed.

Lemma sin_sub_PI a : sin (a - PI) = - sin a.
Proof. rewrite sin_minus, cos_PI, sin_PI. ring. Qed.

Lemma div_neg_pos y x : x < 0 -> 0 <= y -> y / x <= 0.
Proof. intros Hx Hy. pose proof (Rinv_lt_0_compat x Hx). unfold Rdiv. nra. Qed.

Lemma div_neg_neg y x : x < 0 -> y < 0 -> 0 < y / x.
Proof. intros Hx Hy. pose proof (Rinv_lt_0_compat x Hx). unfold Rdiv. nra. Qed.

(** [sqrt (1 + (y/x)^2) * |x|] is the length of [(x, y)]. *)
Lemma sqrt_ratio x y :
  x <> 0 -> sqrt (1 + (y / x)²) * Rabs x = sqrt (x * x + y * y).
Proof.
  intros Hx. symmetry. apply sqrt_lem_1.
  - nra.
  - apply Rmult_le_pos; [apply sqrt_pos | apply Rabs_pos].
  - replace (sqrt (1 + (y / x)²) * Rabs x * (sqrt (1 + (y / x)²) * Rabs x))
      with ((sqrt (1 + (y / x)²))² * (Rabs x * Rabs x)) by (unfold Rsqr; ring).
    rewrite Rsqr_sqrt by (pose proof (Rle_0_sqr (y / x)); lra).
    rewrite <- Rabs_mult, Rabs_right by nra.
    unfold Rsqr. field. exact Hx.
Qed.

Lemma sqrt_1_sq_pos t : 0 < sqrt (1 + t²).
Proof. apply sqrt_lt_R0. pose proof (Rle_0_sqr t). lra. Qed.

(** ** atan2 *)

Lemma atan2_range y x : - PI < atan2 y x <= PI.
Proof.
  pose proof PI_pos. pose proof (atan_bound (y / x)).
  unfold atan2.
  destruct (Rlt_dec 0 x); [lra|].
  destruct (Rlt_dec x 0) as [Hx|Hx].
  - destruct (Rle_dec 0 y).
    + pose proof (atan_nonpos (y / x) (div_neg_pos y x Hx ltac:(lra))). lra.
    + pose proof (atan_pos (y / x) (div_neg_neg y x Hx ltac:(lra))). lra.
  - destruct (Rlt_dec 0 y); [lra|]. destruct (Rlt_dec y 0); lra.
Qed.

(** With a non-negative [x] (the pitch's [sqrtf]), atan2 stays in the
    right half-plane. *)
Lemma atan2_right_half y x : 0 <= x -> - (PI / 2) <= atan2 y x <= PI / 2.
Proof.
  intros Hx. pose proof PI_pos. pose proof (atan_bound (y / x)).
  unfold atan2.
  destruct (Rlt_dec 0 x); [lra|].
  destruct (Rlt_dec x 0); [lra|].
  destruct (Rlt_dec 0 y); [lra|]. destruct (Rlt_dec y 0); lra.
Qed.

(** The angle of a non-zero vector [(x, y)] points at it: [atan2]
    returns the polar angle. *)
Lemma atan2_polar y x :
  x <> 0 \/ y <> 0 ->
  sqrt (x * x + y * y) * cos (atan2 y x) = x /\
  sqrt (x * x + y * y) * sin (atan2 y x) = y.
Proof.
  intros Hnz. unfold atan2.
  destruct (Rlt_dec 0 x) as [Hx|Hx].
  - rewrite <- (sqrt_ratio x y) by lra. rewrite cos_atan, sin_atan, Rabs_right by lra.
    pose proof (sqrt_1_sq_pos (y / x)). split; field; lra.
  - destruct (Rlt_dec x 0) as [Hx'|Hx'].
    + rewrite <- (sqrt_ratio x y) by lra. rewrite Rabs_left by lra.
      pose proof (sqrt_1_sq_pos (y / x)).
      destruct (Rle_dec 0 y);
        [rewrite neg_cos, neg_sin | rewrite cos_sub_PI, sin_sub_PI];
        rewrite cos_atan, sin_atan; split; field; lra.
    + assert (x = 0) by lra. subst x.
      replace (0 * 0 + y * y) with (y²) by (unfold Rsqr; ring). rewrite sqrt_Rsqr_abs.
      destruct (Rlt_dec 0 y).
      * rewrite cos_PI2, sin_PI2, Rabs_right by lra. split; ring.
      * destruct (Rlt_dec y 0); [|lra].
        rewrite cos_neg, sin_neg, cos_PI2, sin_PI2, Rabs_left by lra. split; ring.
Qed.

(** The branches of [atan2], one lemma each. *)
Lemma atan2_x_pos y x : 0 < x -> atan2 y x = atan (y / x).
Proof. intros H. unfold atan2. destruct (Rlt_dec 0 x); [reflexivity | lra]. Qed.

Lemma atan2_x_neg_y_nonneg y x : x < 0 -> 0 <= y -> atan2 y x = atan (y / x) + PI.
Proof.
  intros Hx Hy. unfold atan2.
  destruct (Rlt_dec 0 x); [lra|]. destruct (Rlt_dec x 0); [|lra].
  destruct (Rle_dec 0 y); [reflexivity | lra].
Qed.

Lemma atan2_x_neg_y_neg y x : x < 0 -> y < 0 -> atan2 y x = atan (y / x) - PI.
Proof.
  intros Hx Hy. unfold atan2.
  destruct (Rlt_dec 0 x); [lra|]. destruct (Rlt_dec x 0); [|lra].
  destruct (Rle_dec 0 y); [lra | reflexivity].
Qed.

Lemma atan2_x_zero y :
  atan2 y 0 = if Rlt_dec 0 y then PI / 2 else if Rlt_dec y 0 then - (PI / 2) else 0.
Proof.
  unfold atan2. destruct (Rlt_dec 0 0); [lra|]. destruct (Rlt_dec 0 0); [lra|]. reflexivity.
Qed.

Lemma atan2_0_l x : atan2 0 x = if Rlt_dec x 0 then PI else 0.
Proof.
  destruct (Rtotal_order x 0) as [H|[H|H]].
  - rewrite atan2_x_neg_y_nonneg by lra. destruct (Rlt_dec x 0); [|lra].
    unfold Rdiv. rewrite Rmult_0_l, atan_0. ring.
  - subst. rewrite atan2_x_zero. destruct (Rlt_dec 0 0); [lra|].
    destruct (Rlt_dec (0:R) 0); [lra | reflexivity].
  - rewrite atan2_x_pos by lra. destruct (Rlt_dec x 0); [lra|].
    unfold Rdiv. rewrite Rmult_0_l. apply atan_0.
Qed.

Lemma tan_ratio r a : 0 < r -> cos a <> 0 -> r * sin a / (r * cos a) = tan a.
Proof. intros. unfold tan. field. lra. Qed.

(** [atan2] inverts the polar coordinates on the half-open turn
    [(-PI, PI]]. *)
Lemma atan2_of_polar r phi :
  0 < r -> - PI < phi <= PI -> atan2 (r * sin phi) (r * cos phi) = phi.
Proof.
  intros Hr Hphi. pose proof PI_pos.
  destruct (Rtotal_order phi (- (PI / 2))) as [Hlo|[Hlo|Hlo]];
  [|subst phi; rewrite cos_neg, sin_neg, cos_PI2, sin_PI2, Rmult_0_r, atan2_x_zero;
    destruct (Rlt_dec 0 (r * - (1))); [lra|]; destruct (Rlt_dec (r * - (1)) 0); lra|];
  [|destruct (Rtotal_order phi (PI / 2)) as [Hhi|[Hhi|Hhi]]].
  - (* third quadrant *)
    assert (cos phi < 0).
    { rewrite <- cos_neg. apply cos_lt_0; lra. }
    assert (sin phi < 0) by (apply sin_lt_0_var; lra).
    rewrite atan2_x_neg_y_neg by nra.
    rewrite tan_ratio by lra.
    replace (tan phi) with (tan (phi + PI)) by (unfold tan; rewrite neg_sin, neg_cos; field; lra).
    rewrite atan_tan by lra. ring.
  - (* right half-plane *)
    assert (0 < cos phi) by (apply cos_gt_0; lra).
    rewrite atan2_x_pos by nra. rewrite tan_ratio by lra. apply atan_tan. lra.
  - subst phi. rewrite cos_PI2, sin_PI2, Rmult_0_r, atan2_x_zero.
    destruct (Rlt_dec 0 (r * 1)); [reflexivity | lra].
  - (* second quadrant, up to PI included *)
    assert (cos phi < 0) by (apply cos_lt_0; lra).
    assert (0 <= sin phi) by (apply sin_ge_0; lra).
    rewrite atan2_x_neg_y_nonneg by nra.
    rewrite tan_ratio by lra.
    replace (tan phi) with (tan (phi - PI)) by (unfold tan; rewrite sin_sub_PI, cos_sub_PI; field; lra).
    rewrite atan_tan by lra. ring.
Qed.

(** [atan2] ignores a positive common factor of its arguments. *)
Lemma atan2_scale k y x : 0 < k -> atan2 (k * y) (k * x) = atan2 y x.
Proof.
  intros Hk.
  destruct (Rtotal_order x 0) as [Hx|[Hx|Hx]].
  - assert (E : k * y / (k * x) = y / x) by (field; lra).
    destruct (Rle_lt_dec 0 y).
    + rewrite !atan2_x_neg_y_nonneg, E by nra. reflexivity.
    + rewrite !atan2_x_neg_y_neg, E by nra. reflexivity.
  - subst x. rewrite Rmult_0_r, !atan2_x_zero.
    destruct (Rlt_dec 0 (k * y)), (Rlt_dec 0 y); try nra;
    destruct (Rlt_dec (k * y) 0), (Rlt_dec y 0); nra.
  - rewrite !atan2_x_pos by nra. f_equal. field. lra.
Qed.

(** ** Degrees *)

Lemma deg_lt a b : a < b -> a * 180 / PI < b * 180 / PI.
Proof.
  intros H. pose proof (Rinv_0_lt_compat PI PI_pos). unfold Rdiv.
  apply Rmult_lt_compat_r; [exact H0 | lra].
Qed.

Lemma deg_le a b : a <= b -> a * 180 / PI <= b * 180 / PI.
Proof. intros [H|H]; [left; now apply deg_lt | right; now subst]. Qed.

(** ** Lemmas on the estimate *)

Lemma sqrt_sum_sq_scale k u v :
  0 < k -> sqrt (k * u * (k * u) + k * v * (k * v)) = k * sqrt (u * u + v * v).
Proof.
  intros Hk.
  replace (k * u * (k * u) + k * v * (k * v)) with ((k * k) * (u * u + v * v)) by ring.
  rewrite sqrt_mult_alt by nra. rewrite sqrt_square by lra. reflexivity.
Qed.

(** The length of [(r cos t, r sin t)] is [r]. *)
Lemma sqrt_polar r t : 0 <= r -> sqrt (r * cos t * (r * cos t) + r * sin t * (r * sin t)) = r.
Proof.
  intros Hr. apply sqrt_lem_1; [nra | exact Hr |].
  pose proof (sin2_cos2 t). unfold Rsqr in *. nra.
Qed.

(** A zero horizontal length forces both horizontal components to zero. *)
Lemma sqrt_sum_sq_zero u v : sqrt (u * u + v * v) = 0 -> u = 0 /\ v = 0.
Proof. intros H. apply sqrt_eq_0 in H; nra. Qed.

Lemma sqrt_sum_sq_sq u v : sqrt (u * u + v * v) * sqrt (u * u + v * v) = u * u + v * v.
Proof. apply sqrt_sqrt. nra. Qed.

#[export] Hint Resolve PI_pos atan2_range atan2_right_half : esp.

(** Roll is an [atan2] over the whole circle; pitch is an [atan2] with
    a non-negative second argument, so it stays in the right half. *)
Lemma roll_rad_range a : - PI < roll_rad a <= PI.
Proof. apply atan2_range. Qed.

Lemma pitch_rad_range a : - (PI / 2) <= pitch_rad a <= PI / 2.
Proof. apply atan2_right_half, sqrt_pos. Qed.

(** ** Properties of the estimator *)

(** C1: roll lies in (-180, 180] and pitch in [-90, 90] degrees, for
    every acceleration vector. *)
Theorem estimate_range (a : vec3) :
  - 180 < roll (estimate a) <= 180 /\ - 90 <= pitch (estimate a) <= 90.
Proof.
  unfold estimate; simpl.
  destruct (roll_rad_range a) as [H1 H2]. destruct (pitch_rad_range a) as [H3 H4].
  apply deg_lt in H1. apply deg_le in H2, H3, H4. pose proof PI_pos.
  replace (- PI * 180 / PI) with (-180) in H1 by (field; lra).
  replace (PI * 180 / PI) with 180 in H2 by (field; lra).
  replace (- (PI / 2) * 180 / PI) with (-90) in H3 by (field; lra).
  replace (PI / 2 * 180 / PI) with 90 in H4 by (field; lra).
  lra.
Qed.

(** C2 (refinement): the estimator inverts the gravity model. A device
    rolled by [phi] in (-PI, PI] and pitched by [theta] in
    (-PI/2, PI/2), at rest in a gravity field of any strength, reads
    [phi] and [theta] back, in degrees. *)
Theorem estimate_gravity (g phi theta : R) :
  0 < g -> - PI < phi <= PI -> - (PI / 2) < theta < PI / 2 ->
  estimate (gravity_body g phi theta) = Orientation (phi * 180 / PI) (theta * 180 / PI).
Proof.
  intros Hg Hphi Htheta. pose proof PI_pos.
  assert (Hc : 0 < cos theta) by (apply cos_gt_0; lra).
  unfold estimate, roll_rad, pitch_rad, gravity_body; simpl. f_equal.
  - rewrite atan2_of_polar by (nra || lra). reflexivity.
  - replace (sqrt (g * cos theta * sin phi * (g * cos theta * sin phi) +
                   g * cos theta * cos phi * (g * cos theta * cos phi)))
      with (g * cos theta).
    2:{ symmetry. etransitivity; [|apply (sqrt_polar (g * cos theta) phi); nra].
        f_equal. ring. }
    replace (- (- g * sin theta)) with (g * sin theta) by ring.
    rewrite atan2_of_polar by lra. reflexivity.
Qed.

(** The device at rest, level (spec scenario 1): the refinement
    theorem at [phi = theta = 0], where the gravity vector is
    [(0, 0, 9.8)]. *)
Lemma estimate_gravity_witness : estimate (Vec3 0 0 9.8) = Orientation 0 0.
Proof.
  pose proof PI_pos.
  assert (E : gravity_body 9.8 0 0 = Vec3 0 0 9.8)
    by (unfold gravity_body; rewrite sin_0, cos_0; f_equal; ring).
  rewrite <- E. rewrite (estimate_gravity 9.8 0 0); [|lra|lra|lra].
  f_equal; unfold Rdiv; ring.
Defined.

(** C3 (round trip): the estimate loses only the magnitude. The gravity
    model rebuilt from [|a|] and the two angles (in radians) is [a]
    itself, for every vector, the axis cases included. *)
Theorem gravity_of_estimate (a : vec3) :
  gravity_body (norm3 a) (roll_rad a) (pitch_rad a) = a.
Proof.
  destruct a as [x y z]. unfold gravity_body, norm3, roll_rad, pitch_rad; simpl.
  set (rho := sqrt (y * y + z * z)).
  assert (Hn : sqrt (x * x + y * y + z * z) = sqrt (rho * rho + - x * - x)).
  { unfold rho. rewrite sqrt_sum_sq_sq. f_equal. ring. }
  rewrite Hn.
  destruct (Req_dec rho 0) as [H0|H0].
  - destruct (sqrt_sum_sq_zero y z H0) as [-> ->]. rewrite H0.
    destruct (Req_dec x 0) as [->|Hx].
    + replace (0 * 0 + - 0 * - 0) with 0 by ring. rewrite sqrt_0. f_equal; ring.
    + assert (Hx' : - x <> 0) by (intro; apply Hx; lra).
      destruct (atan2_polar (- x) 0 (or_intror Hx')) as [Hc Hs].
      f_equal; [rewrite <- Ropp_mult_distr_l, Hs; ring | rewrite Hc; ring | rewrite Hc; ring].
  - assert (Hyz : z <> 0 \/ y <> 0).
    { destruct (Req_dec z 0), (Req_dec y 0); auto. subst. exfalso. apply H0.
      unfold rho. replace (0 * 0 + 0 * 0) with 0 by ring. apply sqrt_0. }
    destruct (atan2_polar (- x) rho (or_introl H0)) as [Hc Hs].
    destruct (atan2_polar y z Hyz) as [Hc' Hs'].
    rewrite Rplus_comm in Hc', Hs'. fold rho in Hc', Hs'.
    f_equal; [rewrite <- Ropp_mult_distr_l, Hs; ring | rewrite Hc; exact Hs' | rewrite Hc; exact Hc'].
Qed.

(** C4: the estimate does not depend on the strength of the
    acceleration: scaling the vector by a positive factor leaves roll
    and pitch unchanged. *)
Theorem estimate_scale (k : R) (a : vec3) : 0 < k -> estimate (vscale k a) = estimate a.
Proof.
  intros Hk. destruct a as [x y z]. unfold estimate, roll_rad, pitch_rad, vscale; simpl.
  rewrite atan2_scale by exact Hk. rewrite sqrt_sum_sq_scale by exact Hk.
  replace (- (k * x)) with (k * - x) by ring. rewrite atan2_scale by exact Hk.
  reflexivity.
Qed.

Lemma estimate_scale_witness : estimate (vscale 2 (Vec3 1 2 3)) = estimate (Vec3 1 2 3).
Proof. apply (estimate_scale 2 (Vec3 1 2 3)). lra. Defined.

(** C5: nose pointing straight down (spec scenario 3): with the whole
    of gravity on the -x axis, pitch is 90 degrees and roll is the
    [atan2(0, 0) = 0] of the axis case. *)
Theorem estimate_nose_down (g : R) : 0 < g -> estimate (Vec3 (- g) 0 0) = Orientation 0 90.
Proof.
  intros Hg. pose proof PI_pos. unfold estimate, roll_rad, pitch_rad; simpl.
  rewrite atan2_0_l. destruct (Rlt_dec 0 0); [lra|].
  replace (0 * 0 + 0 * 0) with 0 by ring. rewrite sqrt_0, Ropp_involutive, atan2_x_zero.
  destruct (Rlt_dec 0 g); [|lra]. f_equal; field; lra.
Qed.

Lemma estimate_nose_down_witness : estimate (Vec3 (Ropp 9.8) 0 0) = Orientation 0 90.
Proof. apply estimate_nose_down. lra. Defined.

(** C6: pitch is zero whenever the x component is zero, whatever the
    other two are (spec: pitch boundary). *)
Theorem estimate_pitch_zero (y z : R) : pitch (estimate (Vec3 0 y z)) = 0.
Proof.
  unfold estimate, pitch_rad; simpl. rewrite Ropp_0, atan2_0_l.
  destruct (Rlt_dec (sqrt (y * y + z * z)) 0) as [H|H].
  - pose proof (sqrt_pos (y * y + z * z)). lra.
  - unfold Rdiv. ring.
Qed.

(** C7: with equal positive y and z components the roll is 45 degrees
    (spec: round-trip sanity). *)
Theorem estimate_roll_45 (x v : R) : 0 < v -> roll (estimate (Vec3 x v v)) = 45.
Proof.
  intros Hv. pose proof PI_pos. unfold estimate, roll_rad; simpl.
  rewrite atan2_x_pos by exact Hv. replace (v / v) with 1 by (field; lra).
  rewrite atan_1. field. lra.
Qed.

Lemma estimate_roll_45_witness : roll (estimate (Vec3 0 7 7)) = 45.
Proof. apply estimate_roll_45. lra. Defined.

End Estimator.
