(* ===== verification/Renderer.v ===== *)
(** * Renderer: the screen layout of main.cpp

    [drawHeader] (main.cpp 49-56), [drawStaticLabels] (58-71),
    [clearValueBox] (73-76) and [printValue] (78-90), written in the
    drawing monad of [Tft] in the order of the source. The font is a
    section variable, so every theorem holds for any font table.

    The theorems show three things about [printValue]:
    - it reads only the frame of the display (size, rotation, wrap);
    - it is idempotent: drawing the same value twice leaves the same
      picture as drawing it once;
    - the value box shows the new value whatever was there before: the
      clear leaves no residual pixel. With a value below 999.95 and a
      unit of at most three letters, nothing outside the box changes.

    The static screen ([drawHeader] then [drawStaticLabels]) paints no
    pixel of a value box, so the two parts of the screen never
    overwrite each other. *)

From Stdlib Require Import ZArith Lia List String Ascii Bool Reals Lra Morphisms.
From S2P Require Import Prelude Layout Tft PrintFloat.
Import ListNotations.
Import Tft Colors PrintFloat.
Open Scope Z_scope.
Open Scope gfx_scope.

Module Renderer.

Section WithFont.
Variable font : Z -> Z.

(** [static void drawHeader()] *)
Definition drawHeader : gfx Datatypes.unit :=
  w <- get_width ;;
  fillRect 0 0 w HEADER_H COL_HEADER ;;
  setTextSize 2 ;;
  setTextColor ILI9341_WHITE COL_HEADER ;;
  setCursor 10 12 ;;
  print font "ERESENSE - MPU6050".

(** [static void drawStaticLabels()] *)
Definition drawStaticLabels : gfx Datatypes.unit :=
  setTextSize 2 ;;
  setTextColor ILI9341_WHITE COL_BG ;;
  setCursor LINE_X_LABEL LINE_Y1 ;;
  print font "Roll:" ;;
  setCursor LINE_X_LABEL LINE_Y2 ;;
  print font "Pitch:" ;;
  setCursor LINE_X_LABEL LINE_Y3 ;;
  print font "Temp:".

(** [static void clearValueBox(int y)] *)
Definition clearValueBox (y : Z) : gfx Datatypes.unit :=
  fillRect LINE_X_VAL y VAL_W VAL_H COL_BG.

(** [static void printValue(int y, float value, const char* unit,
    uint16_t color, int decimals)] *)
Definition printValue (y : Z) (value : R) (unit : string) (color : Z) (decimals : nat)
  : gfx Datatypes.unit :=
  clearValueBox y ;;
  setTextSize 2 ;;
  setTextColor color COL_BG ;;
  setCursor LINE_X_VAL y ;;
  print font (printFloat value decimals) ;;
  print font " " ;;
  print font unit.

(** ** Structure of [printValue] *)

(** The configuration the text is drawn from. *)
Definition text_cfg (c : cfg) (y color : Z) : cfg :=
  Cfg (width c) (height c) (rotation c) LINE_X_VAL y 2 color COL_BG (wrap c).

(** The characters [printValue] writes. *)
Definition value_text (value : R) (unit : string) (decimals : nat) : list ascii :=
  list_ascii_of_string (printFloat value decimals) ++
  list_ascii_of_string " " ++ list_ascii_of_string unit.

(** ** The picture of the static screen

    The text cells of the title (18 characters at size 2 from (10, 12))
    and of the three labels (size 2 from [LINE_X_LABEL]), and the colour
    every other pixel of the static screen has once [fillScreen],
    [drawHeader] and [drawStaticLabels] have run: the header colour in
    the band above [HEADER_H], the background below it. Inside a text
    cell the colour depends on the font, so none is given. *)
Definition title_cells : rect := Rect 10 12 (12 * 18) 16.

Definition label_cells : list rect :=
  [Rect LINE_X_LABEL LINE_Y1 (12 * 5) 16; Rect LINE_X_LABEL LINE_Y2 (12 * 6) 16;
   Rect LINE_X_LABEL LINE_Y3 (12 * 5) 16].

Definition static_color (x py : Z) : option Z :=
  if py <? HEADER_H then (if in_rect title_cells x py then None else Some COL_HEADER)
  else if existsb (fun r => in_rect r x py) label_cells then None else Some COL_BG.

(** The configuration the title is drawn from. *)
Definition title_cfg (c : cfg) : cfg :=
  Cfg (width c) (height c) (rotation c) 10 12 2 ILI9341_WHITE COL_HEADER (wrap c).

Lemma print_three s1 s2 s3 c :
  (print font s1 ;; print font s2 ;; print font s3) c =
  write_chars font (list_ascii_of_string s1 ++ list_ascii_of_string s2 ++
                    list_ascii_of_string s3) c.
Proof.
  unfold print. rewrite write_chars_app. apply bind_ext. intros _ c'.
  symmetry. apply write_chars_app.
Qed.

Lemma printValue_paints y v u col d c :
  paints_of (printValue y v u col d) c =
  fill_cmds (width c) (height c) LINE_X_VAL y VAL_W VAL_H COL_BG ++
  paints_of (write_chars font (value_text v u d)) (text_cfg c y col).
Proof.
  unfold printValue, clearValueBox.
  do 4 (rewrite paints_of_bind; cbn - [print bind]).
  unfold paints_of. rewrite print_three. reflexivity.
Qed.

Lemma printValue_cfg y v u col d c :
  cfg_of (printValue y v u col d) c = cfg_of (write_chars font (value_text v u d)) (text_cfg c y col).
Proof.
  unfold printValue, clearValueBox.
  do 4 (rewrite cfg_of_bind; cbn - [print bind]).
  unfold cfg_of. rewrite print_three. reflexivity.
Qed.

(** [printValue] reads only the frame of the configuration. *)
Lemma printValue_frame y v u col d c c' :
  frame c = frame c' -> printValue y v u col d c = printValue y v u col d c'.
Proof.
  destruct c, c'. unfold frame. cbn. intros E. injection E as -> -> -> ->. reflexivity.
Qed.

Lemma printValue_keeps_frame y v u col d c :
  frame (cfg_of (printValue y v u col d) c) = frame c.
Proof. rewrite printValue_cfg, write_chars_frame. reflexivity. Qed.

(** C10 (spec: idempotence of rendering): drawing a field twice with
    the same value leaves the display as drawing it once, whatever the
    display showed before. *)
Theorem printValue_idem y v u col d s :
  tft_eq (exec (printValue y v u col d) (exec (printValue y v u col d) s))
         (exec (printValue y v u col d) s).
Proof. apply exec_idem; [apply printValue_frame | apply printValue_keeps_frame]. Qed.

(** C11 (spec: no residual pixels): after [printValue], every pixel of
    the value box on the screen shows the same colour whatever the
    display showed before, so nothing of a previous, longer string
    survives. *)
Theorem printValue_fresh y v u col d s1 s2 x py :
  frame (conf s1) = frame (conf s2) ->
  in_rect (value_box y) x py = true ->
  in_rect (Rect 0 0 (width (conf s1)) (height (conf s1))) x py = true ->
  gram (exec (printValue y v u col d) s1) x py = gram (exec (printValue y v u col d) s2) x py.
Proof.
  intros Hf Hb Hs. rewrite !exec_spec. cbn [gram].
  assert (Ep : paints_of (printValue y v u col d) (conf s1) = paints_of (printValue y v u col d) (conf s2))
    by (unfold paints_of; now rewrite (printValue_frame y v u col d _ _ Hf)).
  rewrite Ep.
  assert (Hwh : width (conf s1) = width (conf s2) /\ height (conf s1) = height (conf s2))
    by (unfold frame in Hf; injection Hf; auto).
  destruct (last_cover (paints_of (printValue y v u col d) (conf s2)) x py) eqn:E.
  - eapply apply_paints_covered. exact E.
  - exfalso. revert E. rewrite printValue_paints, last_cover_app.
    destruct (last_cover (paints_of (write_chars font (value_text v u d)) _) x py); [discriminate|].
    rewrite fill_cmds_cover by (unfold VAL_W, VAL_H; lia).
    destruct Hwh as [<- <-]. unfold value_box in Hb. rewrite Hb, Hs. discriminate.
Qed.

(** The text of a value below 999.95 with a unit of at most three
    letters is printable and at most ten characters long. *)
Lemma value_text_fits v u :
  (Rabs v < 999.95)%R -> (String.length u <= 3)%nat -> printable (list_ascii_of_string u) = true ->
  printable (value_text v u 1) = true /\ (List.length (value_text v u 1) <= 10)%nat.
Proof.
  intros Hv Hu Hp. unfold value_text. split.
  - rewrite !printable_app, Hp. apply andb_true_iff. split; [|reflexivity].
    apply printable_Forall. apply printFloat_chars.
    + intros dg Hd. unfold digit_char. rewrite nat_ascii_embedding by lia. lia.
    + vm_compute. lia.
    + vm_compute. lia.
    + destruct (Rabs_def2 v 999.95 Hv). unfold OVF_BOUND. lra.
  - rewrite !length_app, !list_ascii_of_string_length.
    pose proof (printFloat_length_1 v Hv). simpl. lia.
Qed.

(** C8 (spec scenario 5, [tft.print(value, decimals)]): the text a
    field shows is the value rounded half away from zero to
    [decimals] places: a '-' for a negative value, the integer part and
    the decimals of [N = floor(|v| 10^d + 1/2)], then a space and the
    unit. *)
Theorem printValue_text v u d :
  (- OVF_BOUND <= v <= OVF_BOUND)%R ->
  value_text v u d =
  list_ascii_of_string
    ((if Rlt_dec v 0 then "-" else "") ++
     printNumber (Zfloor (Rabs v * 10 ^ d + / 2) / 10 ^ Z.of_nat d) ++
     (if Nat.ltb 0 d then "." else "") ++
     pad_digits d (Zfloor (Rabs v * 10 ^ d + / 2) mod 10 ^ Z.of_nat d) ++ " " ++ u)%string.
Proof.
  intros Hv. unfold value_text. rewrite printFloat_spec by exact Hv.
  rewrite !list_ascii_of_string_app. rewrite <- !app_assoc. reflexivity.
Qed.

(** C9: a small negative value is shown with a minus sign on zero:
    every value in (-0.05, 0) shows as "-0.0" followed by the unit. *)
Theorem printValue_negative_zero v u :
  (- / 20 < v < 0)%R -> value_text v u 1 = list_ascii_of_string ("-0.0 " ++ u)%string.
Proof.
  intros Hv. unfold value_text. rewrite printFloat_negative_zero by exact Hv. reflexivity.
Qed.

(** C12 (safety): redrawing a field touches only its value box. For a
    value below 999.95, one decimal and a unit of at most three
    letters, on a 240-pixel-wide screen, every pixel outside the box
    keeps its colour: the text neither wraps nor overflows the box. *)
Theorem printValue_confined y v u col s x py :
  width (conf s) = 240 -> (Rabs v < 999.95)%R -> (String.length u <= 3)%nat ->
  printable (list_ascii_of_string u) = true ->
  in_rect (value_box y) x py = false ->
  gram (exec (printValue y v u col 1) s) x py = gram s x py.
Proof.
  intros Hw Hv Hu Hp Hout. rewrite exec_spec. cbn [gram].
  destruct (value_text_fits v u Hv Hu Hp) as [Hpr Hlen].
  apply (covers_only_untouched (value_box y)); [|exact Hout].
  rewrite printValue_paints. apply covers_only_app.
  - apply fill_cmds_covers; unfold VAL_W, VAL_H; lia.
  - destruct (write_chars_text font (value_text v u 1) (text_cfg (conf s) y col)) as [Hc _];
      cbn [textsize cursor_x width text_cfg]; [lia | exact Hpr | rewrite Hw; unfold LINE_X_VAL; lia |].
    eapply covers_only_sub; [exact Hc|].
    unfold rect_sub, value_box, LINE_X_VAL, VAL_W, VAL_H. cbn [rx ry rw rh cursor_x cursor_y textsize text_cfg].
    unfold LINE_X_VAL. Zbool_goal.
Qed.

(** ** The static screen keeps out of the value boxes *)

(** Step through a drawing program whose text is printed on one line:
    each [print] is shown to stay inside its text cells, and [tac]
    shows those cells to miss the region. *)
Ltac avoids_steps_by tac :=
  repeat first
    [ apply avoids_nil
    | apply print_then_avoids; cbn [cursor_x cursor_y textsize width set_cursor];
        [lia | reflexivity | cbn; lia | tac | ]
    | apply print_avoids; cbn [cursor_x cursor_y textsize width set_cursor];
        [lia | reflexivity | cbn; lia | tac]
    | apply avoids_bind; cbn - [print bind] ].

Ltac avoids_steps := avoids_steps_by ltac:(vm_compute; reflexivity).

(** The text cells miss a pixel the hypotheses keep out of them. *)
Ltac pixel_disjoint :=
  apply rect_disjoint_pixel, in_rect_false;
  unfold LINE_X_LABEL, LINE_Y1, LINE_Y2, LINE_Y3, HEADER_H in *; cbn; lia.

Lemma drawHeader_paints c :
  paints_of drawHeader c =
  fill_cmds (width c) (height c) 0 0 (width c) HEADER_H COL_HEADER ++
  paints_of (print font "ERESENSE - MPU6050") (title_cfg c).
Proof. unfold drawHeader. do 5 (rewrite paints_of_bind; cbn - [print bind fill_cmds]). reflexivity. Qed.

Lemma drawHeader_width c : width (cfg_of drawHeader c) = width c.
Proof.
  assert (K : keeps_frame drawHeader) by (unfold drawHeader; solve_keeps_frame).
  pose proof (K c) as E. unfold frame in E. congruence.
Qed.

(** The header band and its title, on the 240-pixel-wide screen, paint
    no pixel of a value box. *)
Lemma drawHeader_avoids c y :
  width c = 240 -> In y value_lines -> avoids (value_box y) (paints_of drawHeader c).
Proof.
  intros Hw Hy. rewrite drawHeader_paints. apply avoids_app.
  - eapply covers_only_avoids; [apply fill_cmds_covers; unfold HEADER_H; lia|].
    rewrite Hw. destruct Hy as [<-|[<-|[<-|[]]]]; vm_compute; reflexivity.
  - unfold title_cfg. destruct Hy as [<-|[<-|[<-|[]]]]; avoids_steps.
Qed.

(** The labels leave every pixel outside their cells alone. *)
Lemma drawStaticLabels_pixel c x py :
  width c = 240 -> existsb (fun r => in_rect r x py) label_cells = false ->
  last_cover (paints_of drawStaticLabels c) x py = None.
Proof.
  intros Hw Hl. unfold label_cells in Hl. cbn [existsb] in Hl. Zbool. in_rect_props.
  apply avoids_pixel. unfold drawStaticLabels. avoids_steps_by pixel_disjoint.
Qed.

(** The static screen draws the picture [static_color] describes, on
    every pixel of the 240x320 screen outside the text cells. *)
Lemma static_screen_picture c fb x py col :
  width c = 240 -> height c = 320 -> 0 <= x < 240 -> 0 <= py < 320 -> static_color x py = Some col ->
  apply_paints (paints_of (fillScreen COL_BG ;; drawHeader ;; drawStaticLabels) c) fb x py = col.
Proof.
  intros Hw Hh Hx Hy Hc. rewrite apply_paints_pixel, paints_of_bind.
  change (cfg_of (fillScreen COL_BG) c) with c. rewrite paints_of_bind, drawHeader_paints.
  pose proof (drawHeader_width c) as Ew. rewrite Hw in Ew.
  set (c' := cfg_of drawHeader c) in *. clearbody c'.
  unfold static_color, title_cells, label_cells in Hc. cbn [existsb] in Hc.
  destruct_ifs_in Hc; try discriminate; injection Hc as <-; Zbool; in_rect_props.
  all: assert (Hl : last_cover (paints_of drawStaticLabels c') x py = None)
         by (apply drawStaticLabels_pixel; [exact Ew | unfold label_cells; cbn [existsb];
             repeat (apply orb_false_iff; split); try reflexivity; apply in_rect_false;
             unfold LINE_X_LABEL, LINE_Y1, LINE_Y2, LINE_Y3, HEADER_H in *; cbn; lia]).
  all: assert (Ht : last_cover (paints_of (print font "ERESENSE - MPU6050") (title_cfg c)) x py = None)
         by (apply avoids_pixel, print_avoids; cbn; [lia | reflexivity | lia | pixel_disjoint]).
  all: rewrite !last_cover_app, Hl, Ht; unfold fillScreen, fillRect; cbn [paints_of fst snd].
  all: rewrite Hw, Hh, !fill_cmds_cover by (unfold HEADER_H; lia).
  all: repeat match goal with |- context [in_rect ?r ?a ?b] => destruct (in_rect r a b) eqn:? end;
         in_rect_props; cbn; try reflexivity; unfold HEADER_H in *; lia.
Qed.

(** C13 (safety, spec 3): the static screen of [setup] never meets the
    dynamic area. On the 240-pixel-wide screen, [drawHeader] followed
    by [drawStaticLabels] leaves every pixel of the three value boxes
    as it was: the header band ends above the first box, and the
    title and the labels "Roll:", "Pitch:", "Temp:" at text size 2 end
    left of [LINE_X_VAL]. So [clearValueBox] never erases a label. *)
Theorem static_screen_outside_values s y x py :
  width (conf s) = 240 -> In y value_lines -> in_rect (value_box y) x py = true ->
  gram (exec (drawHeader ;; drawStaticLabels) s) x py = gram s x py.
Proof.
  intros Hw Hy Hin. rewrite exec_spec. cbn [gram].
  apply (avoids_untouched (value_box y)); [|exact Hin].
  apply avoids_bind; [now apply drawHeader_avoids|]. cbv beta.
  pose proof (drawHeader_width (conf s)) as Ew. rewrite Hw in Ew.
  set (c := cfg_of drawHeader (conf s)) in *. clearbody c.
  unfold drawStaticLabels. destruct Hy as [<-|[<-|[<-|[]]]]; avoids_steps.
Qed.

End WithFont.

(** Spec scenario 5: 23.47 with one decimal and unit "deg" shows
    "23.5 deg". *)
Lemma printValue_text_witness : value_text 23.47 "deg" 1 = list_ascii_of_string "23.5 deg".
Proof.
  rewrite printValue_text by (unfold OVF_BOUND; lra).
  replace (Zfloor (Rabs 23.47 * 10 ^ 1 + / 2)) with 235%Z.
  - destruct (Rlt_dec 23.47 0); [lra|]. vm_compute. reflexivity.
  - symmetry. apply Zfloor_eq. rewrite Rabs_right by lra. simpl. lra.
Defined.

Lemma printValue_negative_zero_witness :
  value_text (- / 100) "deg" 1 = list_ascii_of_string "-0.0 deg".
Proof. apply printValue_negative_zero. lra. Defined.

(** A blank font, a dark and a light display: the box shows the same. *)
Definition font0 : Z -> Z := fun _ => 0.
Definition dark : tft := Tft (fun _ _ => 0) cfg_init.
Definition light : tft := Tft (fun _ _ => 65535) cfg_init.

Lemma printValue_fresh_witness :
  gram (exec (printValue font0 LINE_Y1 (IZR 3) "deg" COL_ROLL 1) dark) 200 80 =
  gram (exec (printValue font0 LINE_Y1 (IZR 3) "deg" COL_ROLL 1) light) 200 80.
Proof. apply printValue_fresh; reflexivity. Defined.

Lemma printValue_confined_witness :
  gram (exec (printValue font0 LINE_Y1 (IZR 3) "deg" COL_ROLL 1) light) 20 80 = 65535.
Proof.
  apply (printValue_confined font0 LINE_Y1 (IZR 3) "deg" COL_ROLL light 20 80);
    [reflexivity | rewrite Rabs_right; lra | simpl; lia | reflexivity | reflexivity].
Defined.

(** The middle of the pitch box keeps its colour while the header and
    the labels are drawn. *)
Lemma static_screen_outside_values_witness :
  gram (exec (drawHeader font0 ;; drawStaticLabels font0) light) 150 120 = 65535.
Proof.
  apply (static_screen_outside_values font0 light LINE_Y2 150 120);
    [reflexivity | simpl; auto | reflexivity].
Defined.

End Renderer.
