(* ===== verification/Mpu6050.v ===== *)
(** * Mpu6050: the inertial sensor collaborator

    The program uses the Adafruit_MPU6050 driver, which is not part of
    [src/]. The spec (4.1, 6) gives its contract:
    - [begin] reports whether the chip answered on the bus;
    - three configuration calls set the accelerometer range, the gyro
      range and the low-pass bandwidth;
    - [getEvent] returns the acceleration in m/s^2 and the temperature
      in degrees C.

    The model keeps the driver's state: whether it is initialised and
    the three settings. A sample is the four signed 16-bit registers the
    driver reads (ACCEL_XOUT..ZOUT and TEMP_OUT). They are converted as
    the driver does it: counts per g for the configured range, times
    standard gravity, and [raw / 340 + 36.53] for the temperature.
    The gyro reading is configured but never used downstream (spec 6),
    so it is not part of the sample. *)

From Stdlib Require Import ZArith Reals Lra Lia.
From S2P Require Import Prelude Estimator.
Import Estimator.
Open Scope R_scope.

Module Mpu6050.

Inductive accel_range := MPU6050_RANGE_2_G | MPU6050_RANGE_4_G | MPU6050_RANGE_8_G | MPU6050_RANGE_16_G.
Inductive gyro_range :=
  MPU6050_RANGE_250_DEG | MPU6050_RANGE_500_DEG | MPU6050_RANGE_1000_DEG | MPU6050_RANGE_2000_DEG.
Inductive bandwidth :=
  MPU6050_BAND_260_HZ | MPU6050_BAND_184_HZ | MPU6050_BAND_94_HZ | MPU6050_BAND_44_HZ
| MPU6050_BAND_21_HZ | MPU6050_BAND_10_HZ | MPU6050_BAND_5_HZ.

Record mpu := Mpu {
  initialized : bool;
  accel_rng : accel_range;
  gyro_rng : gyro_range;
  band : bandwidth }.

(** The four signed 16-bit registers of one reading. *)
Record raw_sample := Raw { raw_ax : Z; raw_ay : Z; raw_az : Z; raw_temp : Z }.

Definition int16 (z : Z) : Prop := (-32768 <= z <= 32767)%Z.

Definition raw_ok (r : raw_sample) : Prop :=
  int16 (raw_ax r) /\ int16 (raw_ay r) /\ int16 (raw_az r) /\ int16 (raw_temp r).

(** The global object [Adafruit_MPU6050 mpu], before [begin]. *)
Definition mpu_init : mpu := Mpu false MPU6050_RANGE_2_G MPU6050_RANGE_250_DEG MPU6050_BAND_260_HZ.

(** [mpu.begin()]: fails when the chip does not answer; on success the
    driver resets the chip to its defaults. *)
Definition begin (present : bool) (m : mpu) : bool * mpu :=
  if present then (true, Mpu true MPU6050_RANGE_2_G MPU6050_RANGE_500_DEG MPU6050_BAND_260_HZ)
  else (false, m).

Definition setAccelerometerRange (r : accel_range) (m : mpu) : mpu :=
  Mpu (initialized m) r (gyro_rng m) (band m).
Definition setGyroRange (r : gyro_range) (m : mpu) : mpu :=
  Mpu (initialized m) (accel_rng m) r (band m).
Definition setFilterBandwidth (b : bandwidth) (m : mpu) : mpu :=
  Mpu (initialized m) (accel_rng m) (gyro_rng m) b.

(** Counts per g of each accelerometer range. *)
Definition accel_scale (r : accel_range) : R :=
  match r with
  | MPU6050_RANGE_2_G => 16384
  | MPU6050_RANGE_4_G => 8192
  | MPU6050_RANGE_8_G => 4096
  | MPU6050_RANGE_16_G => 2048
  end.

Definition SENSORS_GRAVITY_STANDARD : R := 9.80665.

(** [mpu.getEvent(&a, &g, &temp)]: the acceleration in m/s^2 and the
    temperature in degrees C. *)
Definition getEvent (m : mpu) (r : raw_sample) : vec3 * R :=
  let s := accel_scale (accel_rng m) in
  (Vec3 (IZR (raw_ax r) / s * SENSORS_GRAVITY_STANDARD)
        (IZR (raw_ay r) / s * SENSORS_GRAVITY_STANDARD)
        (IZR (raw_az r) / s * SENSORS_GRAVITY_STANDARD),
   IZR (raw_temp r) / 340 + 36.53).

(** The temperature of any register value lies in (-60, 133) degrees. *)
Lemma getEvent_temp_range m r :
  raw_ok r -> -60 < snd (getEvent m r) < 133.
Proof.
  intros (_ & _ & _ & [H1 H2]). simpl.
  apply IZR_le in H1. apply IZR_le in H2. split; lra.
Qed.

End Mpu6050.
