(* ===== verification/Driver.v ===== *)
(** * Driver: [setup] and [loop] as a state machine

    main.cpp 92-125 ([setup]) and 127-153 ([loop]). The Arduino runtime
    runs [setup] once and then [loop] forever. The model is the spec's
    state machine (4.4, 7): Uninitialized, then Running, or Halted when
    the sensor does not answer at boot. Halted is the
    [while (true) delay(100);] of line 104.

    The machine state holds the display ([Tft.tft]), the sensor driver
    ([Mpu6050.mpu]) and the serial log. Each log line keeps the values
    [Serial.printf] formats. The sensor's presence is a parameter of
    the run. Each [loop] reads one raw sample from the environment.

    The theorems are proved by rule induction on [reach]:
    - with the sensor present, a Running state keeps the portrait
      screen, the configured sensor and the static picture of [setup];
    - without it, the program halts without drawing;
    - any sequence of samples is a run whose serial log has one line
      per cycle;
    - a cycle changes only the value boxes.

    Not modelled: [Serial.begin], [delay], [Wire.begin] and [SPI.begin].
    They are timing and bus bring-up, with no effect on the modelled
    state. *)

From Stdlib Require Import ZArith Lia List String Reals Lra.
From S2P Require Import Prelude Layout Tft PrintFloat Estimator Renderer Mpu6050.
Import ListNotations.
Import Tft Estimator Renderer Mpu6050 Colors.
Open Scope Z_scope.
Open Scope gfx_scope.

Module Driver.

Inductive phase := Uninitialized | Running | Halted.

(** A line of the serial log. *)
Inductive log_line :=
| LogError                                  (* "ERROR: MPU6050 not found!" *)
| LogStarted                                (* "System started. Reading MPU6050..." *)
| LogSample (ax ay az roll pitch tC : R).   (* the printf of line 145 *)

Record machine := Machine {
  ph : phase;
  display : tft;
  sensor : mpu;
  serial : list log_line }.

Section WithFont.
Variable font : Z -> Z.

(** The display part of [setup], lines 114-122. *)
Definition setup_display : gfx Datatypes.unit :=
  Tft.begin ;;
  setRotation 0 ;;
  fillScreen COL_BG ;;
  drawHeader font ;;
  drawStaticLabels font.

(** [void setup()], with [present] the answer of the chip on the bus. *)
Definition setup (present : bool) (m : machine) : machine :=
  let '(ok, s1) := Mpu6050.begin present (sensor m) in
  if negb ok then Machine Halted (display m) s1 (serial m ++ [LogError])
  else
    let s2 := setFilterBandwidth MPU6050_BAND_21_HZ
                (setGyroRange MPU6050_RANGE_500_DEG
                  (setAccelerometerRange MPU6050_RANGE_8_G s1)) in
    Machine Running (exec setup_display (display m)) s2 (serial m ++ [LogStarted]).

(** The TFT update of [loop], lines 149-151. *)
Definition refresh (roll pitch tC : R) : gfx Datatypes.unit :=
  printValue font LINE_Y1 roll "deg" COL_ROLL 1 ;;
  printValue font LINE_Y2 pitch "deg" COL_PITCH 1 ;;
  printValue font LINE_Y3 tC "C" COL_TEMP 1.

(** [void loop()] on the raw sample [r]. *)
Definition loop (r : raw_sample) (m : machine) : machine :=
  let '(a, tC) := getEvent (sensor m) r in
  let o := estimate a in
  Machine (ph m) (exec (refresh (roll o) (pitch o) tC) (display m)) (sensor m)
          (serial m ++ [LogSample (ax a) (ay a) (az a) (roll o) (pitch o) tC]).

(** The machine at power-on: [fb] is whatever the panel's memory
    holds. *)
Definition boot (fb : framebuffer) : machine :=
  Machine Uninitialized (Tft fb cfg_init) mpu_init [].

(** One transition: [setup] once, then [loop] on any register values,
    or the idle wait of the Halted state. *)
Inductive step (present : bool) : machine -> machine -> Prop :=
| step_setup m : ph m = Uninitialized -> step present m (setup present m)
| step_loop m r : ph m = Running -> raw_ok r -> step present m (loop r m)
| step_idle m : ph m = Halted -> step present m m.

Inductive reach (present : bool) (m0 : machine) : machine -> Prop :=
| reach_refl : reach present m0 m0
| reach_step m m' : reach present m0 m -> step present m m' -> reach present m0 m'.

(** [n] cycles of [loop], on the register values [rs] in order. *)
Fixpoint run_loops (rs : list raw_sample) (m : machine) : machine :=
  match rs with
  | [] => m
  | r :: rs' => run_loops rs' (loop r m)
  end.

(** The serial line [loop] prints for the registers [r], with the
    sensor in configuration [s]. *)
Definition sample_line (s : mpu) (r : raw_sample) : log_line :=
  let '(a, tC) := getEvent s r in
  let o := estimate a in LogSample (ax a) (ay a) (az a) (roll o) (pitch o) tC.

(** The sensor configuration [setup] leaves. *)
Definition configured : mpu := Mpu true MPU6050_RANGE_8_G MPU6050_RANGE_500_DEG MPU6050_BAND_21_HZ.

(** The pixel [(x, py)] lies in none of the three value boxes. *)
Definition outside_values (x py : Z) : Prop :=
  forall y, In y value_lines -> in_rect (value_box y) x py = false.

(** The invariant of a run with the sensor present: a Running state has
    the 240x320 portrait screen, the configured sensor, and every
    on-screen pixel outside the value boxes still shows the static
    picture of [setup]. *)
Definition inv_present (fb : framebuffer) (m : machine) : Prop :=
  match ph m with
  | Uninitialized => m = boot fb
  | Running =>
      frame (conf (display m)) = (240, 320, 0, true) /\ sensor m = configured /\
      (forall x py col, 0 <= x < 240 -> 0 <= py < 320 -> outside_values x py ->
         static_color x py = Some col -> gram (display m) x py = col)
  | Halted => False
  end.

(** ** Lemmas *)

Lemma printValue_keeps y v u col d : keeps_frame (printValue font y v u col d).
Proof. intros c. apply printValue_keeps_frame. Qed.

Lemma refresh_keeps_frame r p t : keeps_frame (refresh r p t).
Proof. unfold refresh. repeat (apply keeps_frame_bind; [apply printValue_keeps|intros]). apply printValue_keeps. Qed.

(** After [setup]'s display calls the screen is the 240x320 portrait
    screen. *)
Lemma setup_display_frame c : frame (cfg_of setup_display c) = (240, 320, 0, wrap c).
Proof.
  assert (K : keeps_frame (fillScreen COL_BG ;; drawHeader font ;; drawStaticLabels font))
    by (unfold drawHeader, drawStaticLabels; solve_keeps_frame).
  unfold setup_display. rewrite cfg_of_bind. cbv beta. rewrite cfg_of_bind. cbv beta.
  rewrite K. reflexivity.
Qed.

(** [setup_display] paints the static picture on the whole screen. *)
Lemma setup_display_picture c fb x py col :
  0 <= x < 240 -> 0 <= py < 320 -> static_color x py = Some col ->
  apply_paints (paints_of setup_display c) fb x py = col.
Proof.
  intros Hx Hy Hc. unfold setup_display.
  rewrite paints_of_bind; cbv beta. rewrite paints_of_bind; cbv beta.
  change (paints_of Tft.begin c) with (@nil paint).
  change (paints_of (setRotation 0) _) with (@nil paint). cbn [app].
  apply static_screen_picture; [reflexivity | reflexivity | exact Hx | exact Hy | exact Hc].
Qed.

Lemma abs_lt_999 v lo hi : (lo <= v <= hi -> -999.95 < lo -> hi < 999.95 -> Rabs v < 999.95)%R.
Proof. intros H1 H2 H3. apply Rabs_def1; lra. Qed.

(** One cycle of [loop] on the portrait screen changes no pixel outside
    the value boxes: roll, pitch and temperature always fit their box. *)
Lemma loop_outside m r x py :
  frame (conf (display m)) = (240, 320, 0, true) -> raw_ok r -> outside_values x py ->
  gram (display (loop r m)) x py = gram (display m) x py.
Proof.
  intros Hf Hok Hout.
  unfold loop. pose proof (getEvent_temp_range (sensor m) r Hok) as Ht.
  destruct (getEvent (sensor m) r) as [a tC]. cbn [display snd] in *.
  destruct (estimate_range a) as [Hroll Hpitch].
  set (d := display m) in *. unfold refresh. rewrite !exec_seq.
  assert (Hw : forall s, frame (conf s) = (240, 320, 0, true) -> width (conf s) = 240)
    by (intros s E; exact (frame_width _ _ _ _ _ E)).
  assert (Hk : forall s y v u col, frame (conf s) = (240, 320, 0, true) ->
             frame (conf (exec (printValue font y v u col 1) s)) = (240, 320, 0, true))
    by (intros; rewrite exec_keeps_frame by apply printValue_keeps; assumption).
  rewrite printValue_confined; [|apply Hw, Hk, Hk, Hf | apply (abs_lt_999 tC (-60) 133)%R; lra
    | simpl; lia | reflexivity | apply Hout; simpl; auto].
  rewrite printValue_confined; [|apply Hw, Hk, Hf | apply (abs_lt_999 _ (-90) 90)%R; lra
    | simpl; lia | reflexivity | apply Hout; simpl; auto].
  rewrite printValue_confined; [reflexivity | apply Hw, Hf | apply (abs_lt_999 _ (-180) 180)%R; lra
    | simpl; lia | reflexivity | apply Hout; simpl; auto].
Qed.

Lemma loop_keeps_frame r m : frame (conf (display (loop r m))) = frame (conf (display m)).
Proof.
  unfold loop. destruct (getEvent (sensor m) r). cbn [display].
  apply exec_keeps_frame, refresh_keeps_frame.
Qed.

(** The frame part of the invariant: a reachable state is the boot
    state, or a Running state with the portrait screen. *)
Lemma reach_frame fb m :
  reach true (boot fb) m ->
  m = boot fb \/ (ph m = Running /\ frame (conf (display m)) = (240, 320, 0, true)).
Proof.
  induction 1 as [|m m' Hr IH Hs]; [now left|]. right.
  destruct Hs as [m Hph|m r Hph Hok|m Hph]; destruct IH as [->|[Hr' Hf]]; try (cbn in Hph; congruence).
  - split; [reflexivity|]. cbn. rewrite exec_spec. apply setup_display_frame.
  - split; [|rewrite loop_keeps_frame; exact Hf].
    unfold loop. destruct (getEvent (sensor m) r). exact Hph.
Qed.

(** [run_loops] from a Running state with the configured sensor stays
    reachable and Running, and appends one serial line per sample. *)
Lemma run_loops_spec fb m rs :
  reach true (boot fb) m -> ph m = Running -> sensor m = configured -> Forall raw_ok rs ->
  reach true (boot fb) (run_loops rs m) /\ ph (run_loops rs m) = Running /\
  sensor (run_loops rs m) = configured /\
  serial (run_loops rs m) = serial m ++ map (sample_line configured) rs.
Proof.
  revert m. induction rs as [|r rs IH]; intros m Hr Hph Hsen Hok.
  - cbn. rewrite app_nil_r. auto.
  - inversion Hok as [|? ? Hr0 Hrs]; subst.
    assert (Hl : ph (loop r m) = Running /\ sensor (loop r m) = configured /\
                 serial (loop r m) = serial m ++ [sample_line configured r]).
    { unfold loop, sample_line. rewrite Hsen. destruct (getEvent configured r). auto. }
    destruct Hl as (Hph' & Hsen' & Hser).
    destruct (IH (loop r m)) as (Hr' & Hph'' & Hsen'' & Hser'');
      [eapply reach_step; [exact Hr | now apply step_loop] | exact Hph' | exact Hsen' | exact Hrs |].
    cbn [run_loops map]. rewrite Hser'', Hser, <- app_assoc. auto.
Qed.

(** C14 (invariant): with the sensor present, every reachable state is
    the boot state or Running. A Running state has the portrait 240x320
    screen, the sensor set to +-8 g, +-500 deg/s and a 21 Hz bandwidth,
    and the static picture of [setup] on every pixel outside the value
    boxes: the header colour in the band above [HEADER_H] and the
    background below it, the text cells of the title and the labels
    apart. *)
Theorem running_invariant fb m : reach true (boot fb) m -> inv_present fb m.
Proof.
  induction 1 as [|m m' Hr IH Hs]; [reflexivity|].
  destruct Hs as [m Hph|m r Hph Hok|m Hph]; unfold inv_present in IH; rewrite Hph in IH.
  - subst m. unfold inv_present. cbn. split; [|split; [reflexivity|]].
    + rewrite exec_spec. apply setup_display_frame.
    + intros x py col Hx Hy _ Hc. rewrite exec_spec. cbn [gram]. apply setup_display_picture; assumption.
  - destruct IH as (Hf & Hsen & Hpic). unfold inv_present.
    replace (ph (loop r m)) with Running by (unfold loop; destruct (getEvent (sensor m) r); symmetry; exact Hph).
    split; [rewrite loop_keeps_frame; exact Hf|]. split.
    + unfold loop. destruct (getEvent (sensor m) r). exact Hsen.
    + intros x py col Hx Hy Hout Hc. rewrite loop_outside by assumption. apply Hpic; assumption.
  - contradiction.
Qed.

(** C15 (error, spec scenario 4): with no sensor on the bus, the
    program never reaches Running and never draws: the display keeps
    the power-on state, and a Halted state has logged the error once. *)
Theorem sensor_absent_halts fb m :
  reach false (boot fb) m ->
  display m = Tft fb cfg_init /\ ph m <> Running /\
  (ph m = Halted -> serial m = [LogError]).
Proof.
  induction 1 as [|m m' Hr IH Hs].
  - cbn. repeat split; [discriminate | discriminate].
  - destruct IH as (Hd & Hrun & Hlog).
    destruct Hs as [m Hph|m r Hph Hok|m Hph]; [| contradiction |].
    + (* setup: only the boot state is Uninitialized *)
      cbn. repeat split; [exact Hd | discriminate |]. intros _.
      assert (serial m = []).
      { clear -Hr Hph. induction Hr as [|m0 m1 Hr IH Hs]; [reflexivity|].
        destruct Hs; cbn in Hph |- *; congruence. }
      rewrite H. reflexivity.
    + auto.
Qed.

(** C16 (functional, spec 4.4 and 7): with the sensor present, [setup]
    followed by any number of [loop] cycles, on any 16-bit register
    values, is a run of the machine that stays Running. Its serial log
    is the start message followed by exactly one line per cycle, in
    order, each with the acceleration read with the +-8 g scale and the
    roll, pitch and temperature of that sample. *)
Theorem serial_trace fb rs :
  Forall raw_ok rs ->
  reach true (boot fb) (run_loops rs (setup true (boot fb))) /\
  ph (run_loops rs (setup true (boot fb))) = Running /\
  serial (run_loops rs (setup true (boot fb))) = LogStarted :: map (sample_line configured) rs.
Proof.
  intros Hok.
  assert (Hr : reach true (boot fb) (setup true (boot fb)))
    by (eapply reach_step; [apply reach_refl | now apply step_setup]).
  destruct (run_loops_spec fb _ rs Hr eq_refl eq_refl Hok) as (Hr' & Hph & _ & Hser).
  auto.
Qed.

(** C17 (safety): a cycle of [loop] changes only pixels of the three
    value boxes. Roll, pitch and temperature always fit their box, so
    the header and the labels drawn by [setup] stay on screen. *)
Theorem loop_confined fb m r x py :
  reach true (boot fb) m -> ph m = Running -> raw_ok r ->
  (forall y, In y value_lines -> in_rect (value_box y) x py = false) ->
  gram (display (loop r m)) x py = gram (display m) x py.
Proof.
  intros Hr Hph Hok Hout.
  destruct (reach_frame fb m Hr) as [->|[_ Hf]]; [discriminate|]. apply loop_outside; assumption.
Qed.

End WithFont.

Lemma running_invariant_witness :
  inv_present (fun _ _ => 0) (setup Renderer.font0 true (boot (fun _ _ => 0))).
Proof.
  apply (running_invariant Renderer.font0).
  eapply reach_step; [apply reach_refl | now apply step_setup].
Defined.

Lemma sensor_absent_halts_witness :
  let m := setup Renderer.font0 false (boot (fun _ _ => 0)) in
  display m = Tft (fun _ _ => 0) cfg_init /\ ph m <> Running /\ (ph m = Halted -> serial m = [LogError]).
Proof.
  intros m. apply (sensor_absent_halts Renderer.font0).
  eapply reach_step; [apply reach_refl | now apply step_setup].
Defined.

(** Two cycles, level and then nose down, log two lines after the start
    message. *)
Lemma serial_trace_witness :
  let rs := [Raw 0 0 4096 0; Raw (-4096) 0 0 340] in
  serial (run_loops Renderer.font0 rs (setup Renderer.font0 true (boot (fun _ _ => 0)))) =
  LogStarted :: map (sample_line configured) rs.
Proof.
  intros rs. apply (serial_trace Renderer.font0 (fun _ _ => 0) rs).
  repeat constructor; unfold int16; cbn; lia.
Defined.

(** The first cycle after a successful boot leaves the header pixel at
    (5, 5) as [setup] drew it. *)
Lemma loop_confined_witness :
  let m := setup Renderer.font0 true (boot (fun _ _ => 0)) in
  gram (display (loop Renderer.font0 (Raw 100 200 4000 1000) m)) 5 5 = gram (display m) 5 5.
Proof.
  intros m. apply (loop_confined Renderer.font0 (fun _ _ => 0)).
  - eapply reach_step; [apply reach_refl | now apply step_setup].
  - reflexivity.
  - unfold raw_ok, int16; cbn; lia.
  - intros y Hy. unfold value_lines in Hy. destruct Hy as [<-|[<-|[<-|[]]]]; reflexivity.
Defined.

End Driver.
